(** * CustomBorders: a shallow embedding of the border plugin

    The development follows [src/plugins/customBorders/customBorders.js].
    The plugin keeps three pieces of host state in step: the [borders]
    entry of each cell's metadata, the list of walkontable selections that
    the rendering engine draws, and the border nodes of the rendered tree.
    Every method of the class becomes a transformer of one [Plugin] record
    holding that state together with a log of the calls made to the host. *)

From Stdlib Require Import ZArith Ascii String List Bool Lia.
From stdpp Require Import base option list gmap strings pretty fin_maps.

Local Open Scope string_scope.
Local Open Scope list_scope.
Local Open Scope Z_scope.

#[local] Set Warnings "-register-all".

(** ** JavaScript values *)

(** The values that travel through the plugin: side styles handed over by
    the configuration ([{}], [''], [{width: 2, color: 'red'}]), the
    [remove] flag of the menu actions (a boolean, or [undefined] when the
    argument is left out), row and column numbers, class names.  An object
    literal is kept as the list of its own properties. *)
Inductive Value : Type :=
| VUndefined
| VNull
| VBoolean (b : bool)
| VNumber (n : Z)
| VString (s : string)
| VObject (props : list (string * Value)).

(** ToBoolean, as applied by [if (remove)] and [if (customBorders)]. *)
Definition truthy (v : Value) : bool :=
  match v with
  | VUndefined | VNull => false
  | VBoolean b => b
  | VNumber n => negb (n =? 0)
  | VString s => negb (String.eqb s "")
  | VObject _ => true
  end.

(** [a === b] on primitives.  Two object operands are compared by
    reference in JavaScript; the model has no references and answers
    [false] for them.  The operator is only applied to class names, which
    [createClassName] makes strings. *)
Definition strict_equal (a b : Value) : bool :=
  match a, b with
  | VUndefined, VUndefined => true
  | VNull, VNull => true
  | VBoolean x, VBoolean y => Bool.eqb x y
  | VNumber x, VNumber y => x =? y
  | VString x, VString y => String.eqb x y
  | _, _ => false
  end.

(** A border descriptor is a plain object; [setBorder] writes to it under
    a computed key ([bordersMeta[place] = ...]), so it is kept as a finite
    map from property names to values. *)
Abbreviation Descriptor := (gmap string Value).

(** Property read [o.k]: an absent property reads as [undefined]. *)
Definition get (o : Descriptor) (k : string) : Value :=
  default VUndefined (o !! k).

(** ** Coordinates, ranges and configuration entries *)

Record CellCoords := mkCoords { row : Z; col : Z }.

(** The [range] of a configuration entry and the selected range handed to
    [prepareBorder]: both are read through [from.row], [from.col],
    [to.row], [to.col] only. *)
Record CellRange := mkRange { from : CellCoords; to : CellCoords }.

(** One element of the [customBorders] array.  [hasOwnProperty(e, 'top')]
    is [is_Some (Entry.top e)]; a range entry carries [range], a point
    entry carries [row] and [col]. *)
Module Entry.
Record t := mk {
  range : option CellRange;
  row : Z;
  col : Z;
  top : option Value;
  right : option Value;
  bottom : option Value;
  left : option Value
}.
End Entry.

(** The value of [hot.getSettings().customBorders]: absent, a boolean, or
    the array of entries. *)
Inductive Setting : Type :=
| SettingUndefined
| SettingBoolean (b : bool)
| SettingArray (entries : list Entry.t).

Definition setting_truthy (s : Setting) : bool :=
  match s with
  | SettingUndefined => false
  | SettingBoolean b => b
  | SettingArray _ => true
  end.

(** ** Walkontable selections *)

Record WtCoords := mkWtCoords { wt_row : Value; wt_col : Value }.

Record WtCellRange := mkWtCellRange {
  wt_highlight : WtCoords;
  wt_from : WtCoords;
  wt_to : WtCoords
}.

(** [new Selection(settings, cellRange)].  The entry holds the descriptor
    as it was when the selection was built.  In the plugin the selection
    and the cell metadata share one descriptor object, so a later
    [setBorder] on the cell, which writes into that object, shows in the
    entries already listed for the cell; the list kept here records the
    entries as they were pushed.  What is stated about the list is its
    length, the entry pushed last, and the entries pushed by code that
    builds a fresh descriptor for each of them. *)
Record Selection := mkSelection {
  settings : Descriptor;
  cellRange : WtCellRange
}.

(** ** The rendered tree *)

(** The browser calls the plugin makes on [hot.rootElement] and on the
    nodes it finds there. *)
Class DomApi := {
  Dom : Type;
  Node : Type;
  (** [hot.rootElement.querySelectorAll(selector)], a static list *)
  querySelectorAll : Dom -> string -> list Node;
  nodeName : Node -> string;
  nodeClassName : Node -> string;
  parentNode : Dom -> Node -> option Node;
  (** [parent.removeChild(child)] *)
  removeChild : Node -> Node -> Dom -> Dom
}.

(** ** Helpers of [./utils] and [helpers/number] *)

(** Modelled from the spec: [createClassName], [createDefaultCustomBorder]
    and the [border] object of a fresh descriptor live in [./utils], which
    is not among the sources.  The spec calls the class name "a
    deterministic function of (row, col)" and the default style
    "implementation-defined width/color"; they are left open here. *)
Class BorderUtils := {
  createClassName : Z -> Z -> string;
  defaultWidth : Z;
  defaultColor : string
}.

(** Modelled from the spec: [rangeEach] of [helpers/number] is not among
    the sources.  The spec has every loop visit an inclusive range of
    indices in ascending order; an empty range (upper bound below the
    lower one) runs the body not at all.  The value a callback returns is
    dropped. *)
Definition rangeEach {St : Type} (rangeFrom rangeTo : Z)
    (iteratee : Z -> St -> St) (s : St) : St :=
  foldl (fun acc index => iteratee index acc) s
        (seqZ rangeFrom (rangeTo - rangeFrom + 1)).

Section Plugin.
Context {domApi : DomApi} {utils : BorderUtils}.

(** Modelled from the spec: [createSingleEmptyBorder] is not among the
    sources; the spec gives it as "[{hidden: true}] equivalent, used to
    blank one side". *)
Definition createSingleEmptyBorder : Value :=
  VObject [("hidden", VBoolean true)].

(** Modelled from the spec: [createDefaultCustomBorder] is not among the
    sources; "the default visible style (implementation-defined
    width/color)". *)
Definition createDefaultCustomBorder : Value :=
  VObject [("width", VNumber defaultWidth); ("color", VString defaultColor)].

(** Modelled from the spec: the [border] property of a fresh descriptor
    ("Object with color, width and cornerVisible property" in the
    documentation of [insertBorderIntoSettings]); the spec lists
    [cornerVisible: boolean] in the descriptor. *)
Definition createDefaultHtBorder : Value :=
  VObject [("width", VNumber defaultWidth); ("color", VString defaultColor);
           ("cornerVisible", VBoolean false)].

(** Modelled from the spec: [createEmptyBorders] is not among the
    sources; "all four sides set to the hidden SideStyle, className
    derived from (row, col)". *)
Definition createEmptyBorders (r c : Z) : Descriptor :=
  <["className" := VString (createClassName r c)]>
  (<["border" := createDefaultHtBorder]>
  (<["row" := VNumber r]>
  (<["col" := VNumber c]>
  (<["top" := createSingleEmptyBorder]>
  (<["right" := createSingleEmptyBorder]>
  (<["bottom" := createSingleEmptyBorder]>
  (<["left" := createSingleEmptyBorder]> ∅))))))).

(** [border.side = value] when the entry has [side] as an own property:
    [if (hasOwnProperty(obj, side)) { border[side] = obj[side]; }]. *)
Definition assignOwn (side : string) (v : option Value) (border : Descriptor)
    : Descriptor :=
  match v with
  | Some x => <[side := x]> border
  | None => border
  end.

(** Modelled from the spec: [extendDefaultBorder] is not among the
    sources; "for each of the four sides, if the config entry explicitly
    sets that side, overwrite it; sides not mentioned are left as-is". *)
Definition extendDefaultBorder (defaultBorder : Descriptor)
    (customBorder : Entry.t) : Descriptor :=
  assignOwn "left" (Entry.left customBorder)
  (assignOwn "bottom" (Entry.bottom customBorder)
  (assignOwn "right" (Entry.right customBorder)
  (assignOwn "top" (Entry.top customBorder) defaultBorder))).

(** ** The state the plugin works on *)

(** The calls that leave the plugin, in the order they are made. *)
Inductive Call : Type :=
| CallSetCellMeta (r c : Z)
| CallRemoveCellMeta (r c : Z)
| CallSelectionsAssign (index : Z)
| CallSelectionsPush
| CallQuerySelectorAll (selector : string)
| CallRemoveChild (child : Node)
| CallRender
| CallDraw.

(** [cellMeta] is the [borders] entry of every cell's metadata;
    [selections] is [hot.view.wt.selections]; [dom] is the tree under
    [hot.rootElement]; [customBorders] is the live setting and
    [savedSettings] the field of the plugin instance ([None] for
    [undefined]). *)
Record Plugin := mkPlugin {
  cellMeta : gmap (Z * Z) Descriptor;
  selections : list Selection;
  dom : Dom;
  customBorders : Setting;
  savedSettings : option (list Entry.t);
  calls : list Call
}.

Definition logCall (c : Call) (p : Plugin) : Plugin :=
  mkPlugin (cellMeta p) (selections p) (dom p) (customBorders p)
           (savedSettings p) (calls p ++ [c]).

(** [hot.getCellMeta(row, col).borders] *)
Definition getCellMeta (r c : Z) (p : Plugin) : option Descriptor :=
  cellMeta p !! (r, c).

(** [hot.setCellMeta(row, col, 'borders', border)] *)
Definition setCellMeta (r c : Z) (border : Descriptor) (p : Plugin) : Plugin :=
  logCall (CallSetCellMeta r c)
    (mkPlugin (<[(r, c) := border]> (cellMeta p)) (selections p) (dom p)
              (customBorders p) (savedSettings p) (calls p)).

(** [hot.removeCellMeta(row, col, 'borders')] *)
Definition removeCellMeta (r c : Z) (p : Plugin) : Plugin :=
  logCall (CallRemoveCellMeta r c)
    (mkPlugin (delete (r, c) (cellMeta p)) (selections p) (dom p)
              (customBorders p) (savedSettings p) (calls p)).

Definition setSelections (l : list Selection) (p : Plugin) : Plugin :=
  mkPlugin (cellMeta p) l (dom p) (customBorders p) (savedSettings p) (calls p).

Definition setSavedSettings (l : list Entry.t) (p : Plugin) : Plugin :=
  mkPlugin (cellMeta p) (selections p) (dom p) (customBorders p) (Some l)
           (calls p).

(** [parent.removeChild(child)] on the live tree *)
Definition domRemoveChild (parent child : Node) (p : Plugin) : Plugin :=
  logCall (CallRemoveChild child)
    (mkPlugin (cellMeta p) (selections p) (removeChild parent child (dom p))
              (customBorders p) (savedSettings p) (calls p)).

(** [hot.render()] and [hot.view.wt.draw(true)] belong to the rendering
    engine: the request is recorded, the tree stays as the plugin left
    it. *)
Definition render (p : Plugin) : Plugin := logCall CallRender p.

Definition draw (p : Plugin) : Plugin := logCall CallDraw p.

(** ** The methods of [CustomBorders] *)

(** [getSettingIndex(className)].  The [return index] stands inside the
    arrow function handed to [rangeEach]: it ends that call of the
    callback, and [rangeEach] drops the value.  The method itself has one
    [return], the final [return -1]. *)
Definition getSettingIndex (className : Value) (p : Plugin) : Z :=
  let callback (index : Z) : option Z :=
    match selections p !! Z.to_nat index with
    | Some selection =>
        if strict_equal (get (settings selection) "className") className
        then Some index
        else None
    | None => None
    end in
  let 'tt :=
    rangeEach 0 (Z.of_nat (length (selections p)) - 1)
      (fun index (u : unit) => let _ := callback index in u) tt in
  -1.

(** [new Selection(border, new CellRange(coordinates, coordinates,
    coordinates))] with [coordinates = {row: border.row, col: border.col}]. *)
Definition newSelection (border : Descriptor) : Selection :=
  let coordinates := mkWtCoords (get border "row") (get border "col") in
  mkSelection border (mkWtCellRange coordinates coordinates coordinates).

(** [insertBorderIntoSettings(border)].  An assignment at an index inside
    the array replaces the element there; the index handed over comes
    from [getSettingIndex] and never reaches past the array. *)
Definition insertBorderIntoSettings (border : Descriptor) (p : Plugin)
    : Plugin :=
  let selection := newSelection border in
  let index := getSettingIndex (get border "className") p in
  if 0 <=? index then
    logCall (CallSelectionsAssign index)
      (setSelections (<[Z.to_nat index := selection]> (selections p)) p)
  else
    logCall CallSelectionsPush
      (setSelections (selections p ++ [selection]) p).

(** [prepareBorderFromCustomAdded(row, col, borderObj)] *)
Definition prepareBorderFromCustomAdded (r c : Z) (borderObj : Entry.t)
    (p : Plugin) : Plugin :=
  let border := createEmptyBorders r c in
  let border := extendDefaultBorder border borderObj in
  let p := setCellMeta r c border p in
  insertBorderIntoSettings border p.

(** The body of the inner loop of [prepareBorderFromCustomAddedRange]:
    the descriptor built for the cell and the value of [add] after the
    four tests. *)
Definition rangeCellBorder (rowObj : Entry.t) (range : CellRange)
    (rowIndex colIndex : Z) : Descriptor * Z :=
  let border := createEmptyBorders rowIndex colIndex in
  let add := 0 in
  let '(border, add) :=
    if rowIndex =? row (from range)
    then (assignOwn "top" (Entry.top rowObj) border, add + 1)
    else (border, add) in
  let '(border, add) :=
    if rowIndex =? row (to range)
    then (assignOwn "bottom" (Entry.bottom rowObj) border, add + 1)
    else (border, add) in
  let '(border, add) :=
    if colIndex =? col (from range)
    then (assignOwn "left" (Entry.left rowObj) border, add + 1)
    else (border, add) in
  let '(border, add) :=
    if colIndex =? col (to range)
    then (assignOwn "right" (Entry.right rowObj) border, add + 1)
    else (border, add) in
  (border, add).

(** The callback of the inner loop: the descriptor is stored and
    registered when [add > 0]. *)
Definition rangeCell (rowObj : Entry.t) (range : CellRange)
    (rowIndex colIndex : Z) (p : Plugin) : Plugin :=
  let '(border, add) := rangeCellBorder rowObj range rowIndex colIndex in
  if 0 <? add then
    let p := setCellMeta rowIndex colIndex border p in
    insertBorderIntoSettings border p
  else p.

(** [prepareBorderFromCustomAddedRange(rowObj)].  The caller has tested
    [rowObj.range]; without it the first read of [range.from] throws, and
    nothing is done. *)
Definition prepareBorderFromCustomAddedRange (rowObj : Entry.t) (p : Plugin)
    : Plugin :=
  match Entry.range rowObj with
  | None => p
  | Some range =>
      rangeEach (row (from range)) (row (to range)) (fun rowIndex =>
        rangeEach (col (from range)) (col (to range)) (fun colIndex =>
          rangeCell rowObj range rowIndex colIndex)) p
  end.

(** [removeBordersFromDom(borderClassName)].  The node list is the one
    found before the loop starts.  A node found under the root has a
    parent; the branch without one is out of reach. *)
Definition removeBordersFromDom (borderClassName : string) (p : Plugin)
    : Plugin :=
  let selector := "." +:+ borderClassName in
  let borders := querySelectorAll (dom p) selector in
  let p := logCall (CallQuerySelectorAll selector) p in
  rangeEach 0 (Z.of_nat (length borders) - 1) (fun index p =>
    match borders !! Z.to_nat index with
    | Some node =>
        if negb (String.eqb (nodeName node) "TD") then
          match parentNode (dom p) node with
          | Some parent =>
              match parentNode (dom p) parent with
              | Some grandparent => domRemoveChild grandparent parent p
              | None => p
              end
          | None => p
          end
        else p
    | None => p
    end) p.

(** [removeAllBorders(row, col)] *)
Definition removeAllBorders (r c : Z) (p : Plugin) : Plugin :=
  let borderClassName := createClassName r c in
  let p := removeBordersFromDom borderClassName p in
  removeCellMeta r c p.

(** [setBorder(row, col, place, remove)] *)
Definition setBorder (r c : Z) (place : string) (remove : Value) (p : Plugin)
    : Plugin :=
  let bordersMeta :=
    match getCellMeta r c p with
    | Some meta =>
        if strict_equal (get meta "border") VUndefined
        then createEmptyBorders r c
        else meta
    | None => createEmptyBorders r c
    end in
  let bordersMeta :=
    if truthy remove
    then <[place := createSingleEmptyBorder]> bordersMeta
    else <[place := createDefaultCustomBorder]> bordersMeta in
  let p := setCellMeta r c bordersMeta p in
  let borderClassName := createClassName r c in
  let p := removeBordersFromDom borderClassName p in
  let p := insertBorderIntoSettings bordersMeta p in
  render p.

(** [prepareBorder(range, place, remove)].  The calls for [right],
    [bottom] and [left] pass two coordinates and the place only: the
    fourth parameter of [setBorder] is [undefined] there. *)
Definition prepareBorder (range : CellRange) (place : string) (remove : Value)
    (p : Plugin) : Plugin :=
  if (row (from range) =? row (to range)) && (col (from range) =? col (to range))
  then
    if String.eqb place "noBorders"
    then removeAllBorders (row (from range)) (col (from range)) p
    else setBorder (row (from range)) (col (from range)) place remove p
  else
    if String.eqb place "noBorders" then
      rangeEach (col (from range)) (col (to range)) (fun colIndex =>
        rangeEach (row (from range)) (row (to range)) (fun rowIndex =>
          removeAllBorders rowIndex colIndex)) p
    else if String.eqb place "top" then
      rangeEach (col (from range)) (col (to range)) (fun topCol =>
        setBorder (row (from range)) topCol place remove) p
    else if String.eqb place "right" then
      rangeEach (row (from range)) (row (to range)) (fun rowRight =>
        setBorder rowRight (col (to range)) place VUndefined) p
    else if String.eqb place "bottom" then
      rangeEach (col (from range)) (col (to range)) (fun bottomCol =>
        setBorder (row (to range)) bottomCol place VUndefined) p
    else if String.eqb place "left" then
      rangeEach (row (from range)) (row (to range)) (fun rowLeft =>
        setBorder rowLeft (col (from range)) place VUndefined) p
    else p.

(** One turn of the loop of [createCustomBorders]. *)
Definition createCustomBorder (entry : Entry.t) (p : Plugin) : Plugin :=
  match Entry.range entry with
  | Some _ => prepareBorderFromCustomAddedRange entry p
  | None => prepareBorderFromCustomAdded (Entry.row entry) (Entry.col entry) entry p
  end.

(** [createCustomBorders(customBorders)].  The argument is the array, or
    the truthy value [setsBordersSettings] passes on when nothing was
    saved: a boolean has no [length], the upper bound of the loop is
    [NaN], and the body is never entered. *)
Definition createCustomBorders (borders : Setting) (p : Plugin) : Plugin :=
  let p :=
    match borders with
    | SettingArray entries =>
        rangeEach 0 (Z.of_nat (length entries) - 1) (fun index p =>
          match entries !! Z.to_nat index with
          | Some entry => createCustomBorder entry p
          | None => p
          end) p
    | SettingBoolean _ | SettingUndefined => p
    end in
  let p := render p in
  draw p.

(** The selector ['td[class^="border"]']. *)
Definition borderCellsSelector : string :=
  "td[class^=" +:+ String "034"%char "border" +:+ String "034"%char "]".

(** [setsBordersSettings()] *)
Definition setsBordersSettings (p : Plugin) : Plugin :=
  let customBorders := customBorders p in
  let bordersFromTable := querySelectorAll (dom p) borderCellsSelector in
  let p := logCall (CallQuerySelectorAll borderCellsSelector) p in
  let p :=
    rangeEach 0 (Z.of_nat (length bordersFromTable) - 1) (fun index p =>
      match bordersFromTable !! Z.to_nat index with
      | Some node => removeBordersFromDom (nodeClassName node) p
      | None => p
      end) p in
  if setting_truthy customBorders then
    match customBorders with
    | SettingArray entries =>
        let p := setSavedSettings entries p in
        createCustomBorders customBorders p
    | SettingBoolean _ =>
        let borders :=
          match savedSettings p with
          | Some saved => SettingArray saved
          | None => customBorders
          end in
        createCustomBorders borders p
    | SettingUndefined => p
    end
  else p.


(** [disablePlugin()].  [super.disablePlugin()] is [BasePlugin]'s: it
    detaches the hooks and clears the [enabled] flag, neither of which
    is part of [Plugin]. *)
Definition disablePlugin (p : Plugin) : Plugin := setsBordersSettings p.

(** [enablePlugin()] registers the two hooks and hands over to
    [BasePlugin]; it reads and writes nothing that [Plugin] holds. *)
Definition enablePlugin (p : Plugin) : Plugin := p.

(** [updatePlugin()] *)
Definition updatePlugin (p : Plugin) : Plugin :=
  let p := disablePlugin p in
  let p := enablePlugin p in
  setsBordersSettings p.

(** ** Reading the log *)

(** Calls that read or change the rendered tree. *)
Definition isDomCall (c : Call) : bool :=
  match c with
  | CallQuerySelectorAll _ | CallRemoveChild _ => true
  | _ => false
  end.

(** Calls that write cell metadata or the list of selections. *)
Definition isWrite (c : Call) : bool :=
  match c with
  | CallSetCellMeta _ _ | CallRemoveCellMeta _ _
  | CallSelectionsAssign _ | CallSelectionsPush => true
  | _ => false
  end.

Definition isRender (c : Call) : bool :=
  match c with CallRender => true | _ => false end.

(** The number of redraw requests in a log. *)
Definition renders (l : list Call) : nat := length (List.filter isRender l).

(** ** Vocabulary of the statements *)

(** The cell lies in the rectangle of the range, bounds included. *)
Definition insideRange (range : CellRange) (r c : Z) : bool :=
  (row (from range) <=? r) && (r <=? row (to range))
  && (col (from range) <=? c) && (c <=? col (to range)).

(** The cell meets one of the four boundary conditions of the range. *)
Definition onBoundary (range : CellRange) (r c : Z) : bool :=
  (r =? row (from range)) || (r =? row (to range))
  || (c =? col (from range)) || (c =? col (to range)).

(** The value a side takes from an entry: the entry's own value when it
    names the side, the hidden style of a fresh descriptor otherwise. *)
Definition namedSide (v : option Value) : Value :=
  default createSingleEmptyBorder v.

(** The value of one side in the stored descriptor of a cell, if the
    cell has a descriptor. *)
Definition storedSide (p : Plugin) (r c : Z) (side : string) : option Value :=
  (fun border => get border side) <$> cellMeta p !! (r, c).

(** The descriptor [setBorder] works on: the stored one when it has a
    [border] property, a fresh empty one otherwise. *)
Definition currentBorders (r c : Z) (p : Plugin) : Descriptor :=
  match getCellMeta r c p with
  | Some meta =>
      if strict_equal (get meta "border") VUndefined
      then createEmptyBorders r c
      else meta
  | None => createEmptyBorders r c
  end.

(** The style [setBorder] puts on the side: hidden when the flag is
    truthy, the default visible style otherwise. *)
Definition placedStyle (remove : Value) : Value :=
  if truthy remove then createSingleEmptyBorder else createDefaultCustomBorder.

(** The range covers more than one cell. *)
Definition multiCell (range : CellRange) : bool :=
  negb ((row (from range) =? row (to range))
        && (col (from range) =? col (to range))).

(** [q] differs from [p] in the rendered tree and the log at most. *)
Definition sameStore p q : Prop :=
  cellMeta q = cellMeta p /\ selections q = selections p /\
  customBorders q = customBorders p /\ savedSettings q = savedSettings p.

(** [q] is [p] after writes to the metadata and the registry only: the
    tree and the settings are the same and the log has grown by write
    calls. *)
Definition writesOnly (p q : Plugin) : Prop :=
  dom q = dom p /\ customBorders q = customBorders p
  /\ savedSettings q = savedSettings p
  /\ exists w, calls q = calls p ++ w /\ Forall (fun c => isWrite c = true) w.

(** The first statements of [setsBordersSettings]: every cell found
    with a class that starts with [border] has the nodes of its class
    purged. *)
Definition purgeBorderCells (p : Plugin) : Plugin :=
  let bordersFromTable := querySelectorAll (dom p) borderCellsSelector in
  let p := logCall (CallQuerySelectorAll borderCellsSelector) p in
  rangeEach 0 (Z.of_nat (length bordersFromTable) - 1) (fun index p =>
    match bordersFromTable !! Z.to_nat index with
    | Some node => removeBordersFromDom (nodeClassName node) p
    | None => p
    end) p.

(** What [setsBordersSettings] hands to [createCustomBorders]: the
    array, or for [true] the saved array when there is one and [true]
    itself otherwise; [SettingUndefined] stands for no call at all. *)
Definition appliedSetting (p : Plugin) : Setting :=
  match customBorders p with
  | SettingArray entries => SettingArray entries
  | SettingBoolean true =>
      match savedSettings p with
      | Some saved => SettingArray saved
      | None => SettingBoolean true
      end
  | SettingBoolean false | SettingUndefined => SettingUndefined
  end.



(** The host changes the [customBorders] setting. *)
Definition updateSettings (s : Setting) (p : Plugin) : Plugin :=
  mkPlugin (cellMeta p) (selections p) (dom p) s (savedSettings p) (calls p).

(** The cells of a range in the order of the nested loops of
    [prepareBorderFromCustomAddedRange]: rows outside, columns inside. *)
Definition cellsRowMajor (range : CellRange) : list (Z * Z) :=
  r ← seqZ (row (from range)) (row (to range) - row (from range) + 1);
  c ← seqZ (col (from range)) (col (to range) - col (from range) + 1);
  [(r, c)].

(** The calls one cell of a range entry makes. *)
Definition rangeCellCalls (range : CellRange) (k : Z * Z) : list Call :=
  if onBoundary range k.1 k.2
  then [CallSetCellMeta k.1 k.2; CallSelectionsPush]
  else [].

(** The registry operation in the words of the spec: scan for the first
    entry whose registered class name equals the descriptor's, replace it
    in place when there is one, append otherwise. *)
Fixpoint findClassName (className : Value) (l : list Selection) : option nat :=
  match l with
  | [] => None
  | selection :: rest =>
      if strict_equal (get (settings selection) "className") className
      then Some O
      else S <$> findClassName className rest
  end.

Definition upsert (border : Descriptor) (l : list Selection) : list Selection :=
  match findClassName (get border "className") l with
  | Some i => <[i := newSelection border]> l
  | None => l ++ [newSelection border]
  end.

End Plugin.

(** ** A small host for the examples

    A tree given by parent links: every node is listed with the id of its
    parent, the root element has id 0 and no parent of its own, and a
    node taken out by [removeChild] leaves the list, which cuts its
    descendants off the root as well. *)
Module Sample.

Record SNode := mkSNode { sn_id : nat; sn_name : string; sn_class : string }.

Definition rootNode : SNode := mkSNode 0 "DIV" "handsontable".

Definition entryOf (d : list (SNode * nat)) (id : nat) : option (SNode * nat) :=
  find (fun e => Nat.eqb (sn_id (fst e)) id) d.

Fixpoint underRoot (fuel : nat) (d : list (SNode * nat)) (id : nat) : bool :=
  match fuel with
  | O => false
  | S fuel =>
      match entryOf d id with
      | Some (_, parent) => Nat.eqb parent 0 || underRoot fuel d parent
      | None => false
      end
  end.

Definition matches (selector : string) (n : SNode) : bool :=
  String.eqb selector ("." +:+ sn_class n)
  || (String.eqb selector borderCellsSelector
      && String.eqb (sn_name n) "TD"
      && String.prefix "border" (sn_class n)).

Definition query (d : list (SNode * nat)) (selector : string) : list SNode :=
  List.filter (fun n => underRoot (length d) d (sn_id n) && matches selector n)
              (List.map fst d).

Definition parentOf (d : list (SNode * nat)) (n : SNode) : option SNode :=
  match entryOf d (sn_id n) with
  | Some (_, parent) =>
      if Nat.eqb parent 0 then Some rootNode else fst <$> entryOf d parent
  | None => None
  end.

Definition detach (parent child : SNode) (d : list (SNode * nat))
    : list (SNode * nat) :=
  List.filter (fun e => negb (Nat.eqb (sn_id (fst e)) (sn_id child))) d.

#[export] Instance sampleDom : DomApi := {|
  Dom := list (SNode * nat);
  Node := SNode;
  querySelectorAll := query;
  nodeName := sn_name;
  nodeClassName := sn_class;
  parentNode := parentOf;
  removeChild := detach
|}.

#[export] Instance sampleUtils : BorderUtils := {|
  createClassName := fun r c => "border_row" +:+ pretty r +:+ "col" +:+ pretty c;
  defaultWidth := 1;
  defaultColor := "#000"
|}.

(** The border of cell (1,1) as walkontable draws it: a wrapper under the
    borders container holding the border line, and the cell itself
    carrying the class. *)
Definition tree : list (SNode * nat) :=
  [ (mkSNode 1 "DIV" "htBorders", 0%nat);
    (mkSNode 2 "DIV" "", 1%nat);
    (mkSNode 3 "DIV" "border_row1col1", 2%nat);
    (mkSNode 4 "TABLE" "htCore", 0%nat);
    (mkSNode 5 "TR" "", 4%nat);
    (mkSNode 6 "TD" "border_row1col1", 5%nat) ].

Definition blank : Plugin := mkPlugin ∅ [] tree SettingUndefined None [].

(** A 2x2 range, a style, and the entries of the examples. *)
Definition square : CellRange := mkRange (mkCoords 0 0) (mkCoords 1 1).

Definition thin : Value := VObject [("width", VNumber 1); ("color", VString "red")].

Definition topOnly : Entry.t :=
  Entry.mk (Some square) 0 0 (Some thin) None None None.

Definition bottomOnly : Entry.t :=
  Entry.mk (Some square) 0 0 None None (Some thin) None.

Definition topLeft : Entry.t :=
  Entry.mk (Some (mkRange (mkCoords 0 0) (mkCoords 2 2))) 0 0
           (Some thin) None None (Some thin).

Definition leftRed : Entry.t :=
  Entry.mk None 1 1 None None None
    (Some (VObject [("width", VNumber 2); ("color", VString "red")])).

Definition cell11 : Descriptor :=
  extendDefaultBorder (createEmptyBorders 1 1) leftRed.

Definition topBlue : Entry.t :=
  Entry.mk None 1 1
    (Some (VObject [("width", VNumber 1); ("color", VString "blue")]))
    None None None.

(** A range of one row and two columns. *)
Definition pair : CellRange := mkRange (mkCoords 0 0) (mkCoords 0 1).

(** The host is configured with one point entry. *)
Definition configured : Plugin := updateSettings (SettingArray [leftRed]) blank.

(** A table whose cell (1,1) carries the border class and has no border
    node drawn for it. *)
Definition cellsOnly : list (SNode * nat) :=
  [ (mkSNode 4 "TABLE" "htCore", 0%nat);
    (mkSNode 5 "TR" "", 4%nat);
    (mkSNode 6 "TD" "border_row1col1", 5%nat) ].

Definition bare : Plugin := mkPlugin ∅ [] cellsOnly SettingUndefined None [].

(** Cell (1,1) holds an object with a top side and no [border]
    property. *)
Definition stray : Plugin :=
  mkPlugin {[ (1, 1) := {[ "top" := thin ]} ]} [] tree SettingUndefined None [].

(** A range entry over the one cell (1,1) that names [top] and [left]. *)
Definition dot : Entry.t :=
  Entry.mk (Some (mkRange (mkCoords 1 1) (mkCoords 1 1))) 0 0
           (Some thin) None None (Some thin).

End Sample.

(** * Loops *)

Section Loops.
Context {St : Type}.
Implicit Types (f : Z -> St -> St) (s : St).

Lemma rangeEach_nil a b f s : b < a -> rangeEach a b f s = s.
Proof. intros Hlt. unfold rangeEach. rewrite seqZ_nil by lia. reflexivity. Qed.

Lemma rangeEach_cons a b f s :
  a <= b -> rangeEach a b f s = rangeEach (a + 1) b f (f a s).
Proof.
  intros Hle. unfold rangeEach. rewrite (seqZ_cons a) by lia. simpl.
  f_equal. f_equal; lia.
Qed.

Lemma rangeEach_snoc a b f s :
  a <= b -> rangeEach a b f s = f b (rangeEach a (b - 1) f s).
Proof.
  intros Hle. unfold rangeEach.
  replace (b - a + 1) with ((b - 1 - a + 1) + 1) by lia.
  rewrite seqZ_app by lia. rewrite foldl_app.
  rewrite (seqZ_cons _ 1) by lia. rewrite (seqZ_nil _ (Z.pred 1)) by lia. simpl.
  f_equal. lia.
Qed.

(** A property kept by every turn of the loop holds after the loop. *)
Lemma rangeEach_invariant (P : St -> Prop) a b f s :
  P s ->
  (forall i t, a <= i <= b -> P t -> P (f i t)) ->
  P (rangeEach a b f s).
Proof.
  intros Hs Hstep. unfold rangeEach.
  assert (Hin : forall i, i ∈ seqZ a (b - a + 1) -> a <= i <= b).
  { intros i Hi. apply elem_of_seqZ in Hi. lia. }
  revert s Hs Hin. generalize (seqZ a (b - a + 1)) as l.
  induction l as [|i l IH]; intros s Hs Hin; simpl; [exact Hs|].
  apply IH.
  - apply Hstep; [apply Hin; left | exact Hs].
  - intros j Hj. apply Hin. right. exact Hj.
Qed.

Lemma rangeEach_ext a b f g s :
  (forall i t, a <= i <= b -> f i t = g i t) ->
  rangeEach a b f s = rangeEach a b g s.
Proof.
  intros Hfg. unfold rangeEach.
  assert (Hin : forall i, i ∈ seqZ a (b - a + 1) -> a <= i <= b).
  { intros i Hi. apply elem_of_seqZ in Hi. lia. }
  revert s Hin. generalize (seqZ a (b - a + 1)) as l.
  induction l as [|i l IH]; intros s Hin; simpl; [reflexivity|].
  rewrite Hfg by (apply Hin; left). apply IH.
  intros j Hj. apply Hin. right. exact Hj.
Qed.

(** A loop over the indices of an array that reads the element at each
    index is the fold over the elements. *)
Lemma rangeEach_elements {A : Type} (l : list A) (g : A -> St -> St) s :
  rangeEach 0 (Z.of_nat (length l) - 1)
    (fun index t =>
       match l !! Z.to_nat index with Some x => g x t | None => t end) s
  = foldl (fun t x => g x t) s l.
Proof.
  revert s. induction l as [|x l IH] using rev_ind; intros s.
  - simpl. apply rangeEach_nil. lia.
  - rewrite length_app. simpl length. rewrite foldl_app. simpl.
    rewrite rangeEach_snoc by lia.
    replace (Z.to_nat (Z.of_nat (length l + 1) - 1)) with (length l) by lia.
    rewrite list_lookup_middle by reflexivity.
    f_equal. rewrite <- IH.
    replace (Z.of_nat (length l + 1) - 1 - 1) with (Z.of_nat (length l) - 1) by lia.
    apply rangeEach_ext. intros i t Hi.
    rewrite lookup_app_l by lia. reflexivity.
Qed.

(** A measure that every turn raises by one has grown by the number of
    turns. *)
Lemma rangeEach_count (g : St -> nat) a b f s :
  (forall i t, g (f i t) = S (g t)) ->
  g (rangeEach a b f s) = (g s + Z.to_nat (b - a + 1))%nat.
Proof.
  intros Hstep. unfold rangeEach. rewrite <- (length_seqZ a (b - a + 1)).
  generalize (seqZ a (b - a + 1)) as l. intros l. revert s.
  induction l as [|i l IH]; intros s; simpl.
  - lia.
  - rewrite IH, Hstep. lia.
Qed.

End Loops.

(** * What each method leaves alone *)

Section Frames.
Context {domApi : DomApi} {utils : BorderUtils}.
Implicit Types (p q : Plugin) (border : Descriptor).


Lemma sameStore_refl p : sameStore p p.
Proof. repeat split. Qed.

Lemma sameStore_trans p q r : sameStore p q -> sameStore q r -> sameStore p r.
Proof.
  intros (A1 & A2 & A3 & A4) (B1 & B2 & B3 & B4).
  repeat split; congruence.
Qed.

(** The loop of [getSettingIndex] computes nothing the method returns. *)
Lemma getSettingIndex_minus_one (className : Value) p :
  getSettingIndex className p = -1.
Proof.
  unfold getSettingIndex.
  destruct (rangeEach _ _ _ tt). reflexivity.
Qed.

Lemma insertBorderIntoSettings_push border p :
  insertBorderIntoSettings border p
  = logCall CallSelectionsPush
      (setSelections (selections p ++ [newSelection border]) p).
Proof.
  unfold insertBorderIntoSettings.
  rewrite getSettingIndex_minus_one. reflexivity.
Qed.

Lemma removeBordersFromDom_sameStore cls p :
  sameStore p (removeBordersFromDom cls p).
Proof.
  unfold removeBordersFromDom.
  apply rangeEach_invariant.
  - repeat split.
  - intros i t _ Ht.
    destruct (querySelectorAll (dom p) ("." +:+ cls) !! Z.to_nat i) as [node|];
      [|exact Ht].
    destruct (negb (String.eqb (nodeName node) "TD")); [|exact Ht].
    destruct (parentNode (dom t) node) as [parent|]; [|exact Ht].
    destruct (parentNode (dom t) parent) as [grandparent|]; [|exact Ht].
    eapply sameStore_trans; [exact Ht|]. repeat split.
Qed.

(** The calls of [removeBordersFromDom]: one query, then removals. *)
Lemma removeBordersFromDom_calls cls p :
  exists l,
    calls (removeBordersFromDom cls p)
    = calls p ++ CallQuerySelectorAll ("." +:+ cls) :: l
    /\ Forall (fun c => isDomCall c = true) l
    /\ Forall (fun c => isWrite c = false) l
    /\ renders l = 0%nat.
Proof.
  unfold removeBordersFromDom.
  apply (rangeEach_invariant (fun q => exists l,
    calls q = calls p ++ CallQuerySelectorAll ("." +:+ cls) :: l
    /\ Forall (fun c => isDomCall c = true) l
    /\ Forall (fun c => isWrite c = false) l
    /\ renders l = 0%nat)).
  - exists []. simpl. repeat split; constructor.
  - intros i t _ (l & Hl & Hdom & Hw & Hr).
    destruct (querySelectorAll (dom p) ("." +:+ cls) !! Z.to_nat i) as [node|];
      [|eauto].
    destruct (negb (String.eqb (nodeName node) "TD")); [|eauto].
    destruct (parentNode (dom t) node) as [parent|]; [|eauto].
    destruct (parentNode (dom t) parent) as [grandparent|]; [|eauto].
    exists (l ++ [CallRemoveChild parent]). simpl. rewrite Hl.
    repeat split.
    + rewrite <- app_assoc. reflexivity.
    + apply Forall_app. split; [exact Hdom|]. repeat constructor.
    + apply Forall_app. split; [exact Hw|]. repeat constructor.
    + unfold renders in *. rewrite List.filter_app, length_app, Hr. reflexivity.
Qed.

End Frames.

(** * Expanding a range entry *)

Section RangeEntry.
Context {domApi : DomApi} {utils : BorderUtils}.
Implicit Types (p q : Plugin) (border : Descriptor).

Lemma get_insert border k k' v :
  get (<[k := v]> border) k' = if decide (k = k') then v else get border k'.
Proof.
  unfold get. destruct (decide (k = k')) as [->|Hne].
  - rewrite lookup_insert_eq. reflexivity.
  - rewrite lookup_insert_ne by exact Hne. reflexivity.
Qed.

Lemma get_assignOwn side v border k :
  get (assignOwn side v border) k
  = if decide (side = k) then default (get border k) v else get border k.
Proof.
  destruct v as [x|]; simpl.
  - rewrite get_insert. destruct (decide (side = k)); reflexivity.
  - destruct (decide (side = k)); reflexivity.
Qed.

Lemma createEmptyBorders_sides r c :
  get (createEmptyBorders r c) "top" = createSingleEmptyBorder
  /\ get (createEmptyBorders r c) "right" = createSingleEmptyBorder
  /\ get (createEmptyBorders r c) "bottom" = createSingleEmptyBorder
  /\ get (createEmptyBorders r c) "left" = createSingleEmptyBorder
  /\ get (createEmptyBorders r c) "className" = VString (createClassName r c)
  /\ get (createEmptyBorders r c) "row" = VNumber r
  /\ get (createEmptyBorders r c) "col" = VNumber c.
Proof. repeat split. Qed.

(** [add] counts the boundary conditions the cell meets, whether or not
    the entry names the matching side. *)
Lemma rangeCellBorder_add rowObj range r c :
  (0 <? snd (rangeCellBorder rowObj range r c)) = onBoundary range r c.
Proof.
  unfold rangeCellBorder, onBoundary.
  destruct (r =? row (from range)), (r =? row (to range)),
    (c =? col (from range)), (c =? col (to range)); reflexivity.
Qed.

Lemma rangeCellBorder_sides rowObj range r c :
  let border := fst (rangeCellBorder rowObj range r c) in
  get border "top"
    = (if r =? row (from range) then namedSide (Entry.top rowObj)
       else createSingleEmptyBorder)
  /\ get border "bottom"
    = (if r =? row (to range) then namedSide (Entry.bottom rowObj)
       else createSingleEmptyBorder)
  /\ get border "left"
    = (if c =? col (from range) then namedSide (Entry.left rowObj)
       else createSingleEmptyBorder)
  /\ get border "right"
    = (if c =? col (to range) then namedSide (Entry.right rowObj)
       else createSingleEmptyBorder)
  /\ get border "className" = VString (createClassName r c).
Proof.
  unfold rangeCellBorder, namedSide.
  destruct (r =? row (from range)), (r =? row (to range)),
    (c =? col (from range)), (c =? col (to range)); simpl;
    rewrite ?get_assignOwn; simpl; repeat split.
Qed.

(** Two nested loops visit the cells of the range one after the other. *)
Lemma rangeEach_nested {St : Type} (f : Z -> Z -> St -> St) (range : CellRange) (s : St) :
  rangeEach (row (from range)) (row (to range)) (fun r =>
    rangeEach (col (from range)) (col (to range)) (fun c => f r c)) s
  = foldl (fun t k => f k.1 k.2 t) s (cellsRowMajor range).
Proof.
  unfold rangeEach, cellsRowMajor.
  generalize (seqZ (row (from range)) (row (to range) - row (from range) + 1)) as rs.
  generalize (seqZ (col (from range)) (col (to range) - col (from range) + 1)) as cs.
  intros cs rs. revert s.
  induction rs as [|r rs IH]; intros s; simpl; [reflexivity|].
  rewrite foldl_app. rewrite <- IH. f_equal.
  clear IH. revert s. induction cs as [|c cs IHc]; intros s; simpl; [reflexivity|].
  apply IHc.
Qed.

Lemma elem_of_cellsRowMajor range r c :
  (r, c) ∈ cellsRowMajor range <-> insideRange range r c = true.
Proof.
  unfold cellsRowMajor, insideRange. rewrite list_elem_of_bind. split.
  - intros (r' & Hc & Hr). apply list_elem_of_bind in Hc.
    destruct Hc as (c' & Heq & Hc). apply list_elem_of_singleton in Heq.
    inversion Heq; subst. apply elem_of_seqZ in Hr, Hc.
    repeat (apply andb_true_intro; split); lia.
  - intros Hin. repeat (apply andb_prop in Hin; destruct Hin as [Hin ?]).
    exists r. split.
    + apply list_elem_of_bind. exists c. split; [apply list_elem_of_singleton; reflexivity|].
      apply elem_of_seqZ. lia.
    + apply elem_of_seqZ. lia.
Qed.

(** A loop whose turn for cell [k] stores [W k] there, or nothing. *)
Lemma foldl_cell_writes (W : Z * Z -> option Descriptor)
    (step : Z * Z -> Plugin -> Plugin) (l : list (Z * Z)) :
  (forall k p, cellMeta (step k p)
     = match W k with Some b => <[k := b]> (cellMeta p) | None => cellMeta p end) ->
  forall p k,
    cellMeta (foldl (fun t j => step j t) p l) !! k
    = match W k with
      | Some b => if bool_decide (k ∈ l) then Some b else cellMeta p !! k
      | None => cellMeta p !! k
      end.
Proof.
  intros Hstep. induction l as [|a l IH]; intros p k; cbn [foldl].
  - destruct (W k); [|reflexivity].
    rewrite bool_decide_eq_false_2; [reflexivity|]. apply not_elem_of_nil.
  - rewrite IH, Hstep. destruct (W k) as [b|] eqn:HW.
    + destruct (decide (k ∈ l)) as [Hin|Hnin].
      * rewrite !bool_decide_eq_true_2; [reflexivity| |exact Hin].
        right. exact Hin.
      * rewrite (bool_decide_eq_false_2 _ Hnin).
        destruct (decide (a = k)) as [->|Hne].
        -- rewrite HW, lookup_insert_eq.
           rewrite bool_decide_eq_true_2; [reflexivity|left].
        -- rewrite bool_decide_eq_false_2.
           ++ destruct (W a); [rewrite lookup_insert_ne by exact Hne|]; reflexivity.
           ++ intros Hin. apply elem_of_cons in Hin. destruct Hin; congruence.
    + destruct (W a) as [b|] eqn:HWa; [|reflexivity].
      rewrite lookup_insert_ne; [reflexivity|]. congruence.
Qed.

Lemma rangeCell_cellMeta rowObj range r c p :
  cellMeta (rangeCell rowObj range r c p)
  = if onBoundary range r c
    then <[(r, c) := fst (rangeCellBorder rowObj range r c)]> (cellMeta p)
    else cellMeta p.
Proof.
  unfold rangeCell. rewrite <- (rangeCellBorder_add rowObj).
  destruct (rangeCellBorder rowObj range r c) as [border add]. simpl.
  destruct (0 <? add); [|reflexivity].
  rewrite insertBorderIntoSettings_push. reflexivity.
Qed.

(** The metadata after a range entry: a boundary cell of the rectangle
    holds the descriptor built for it, any other cell what it held. *)
Lemma prepareBorderFromCustomAddedRange_cellMeta rowObj range p r c :
  Entry.range rowObj = Some range ->
  cellMeta (prepareBorderFromCustomAddedRange rowObj p) !! (r, c)
  = if insideRange range r c && onBoundary range r c
    then Some (fst (rangeCellBorder rowObj range r c))
    else cellMeta p !! (r, c).
Proof.
  intros Hrange. unfold prepareBorderFromCustomAddedRange. rewrite Hrange.
  rewrite (rangeEach_nested (rangeCell rowObj range)).
  rewrite (foldl_cell_writes
    (fun k => if onBoundary range k.1 k.2
              then Some (fst (rangeCellBorder rowObj range k.1 k.2)) else None)
    (fun k => rangeCell rowObj range k.1 k.2)).
  - simpl. destruct (onBoundary range r c).
    + destruct (insideRange range r c) eqn:Hin; simpl.
      * rewrite bool_decide_eq_true_2; [reflexivity|].
        apply elem_of_cellsRowMajor. exact Hin.
      * rewrite bool_decide_eq_false_2; [reflexivity|].
        rewrite elem_of_cellsRowMajor. congruence.
    + rewrite andb_false_r. reflexivity.
  - intros [r' c'] q. simpl. rewrite rangeCell_cellMeta.
    destruct (onBoundary range r' c'); reflexivity.
Qed.

(** A loop whose turn for cell [k] appends the calls [C k]. *)
Lemma foldl_cell_calls (C : Z * Z -> list Call)
    (step : Z * Z -> Plugin -> Plugin) (l : list (Z * Z)) :
  (forall k p, calls (step k p) = calls p ++ C k) ->
  forall p, calls (foldl (fun t j => step j t) p l) = calls p ++ (l ≫= C).
Proof.
  intros Hstep. induction l as [|a l IH]; intros p; cbn [foldl].
  - simpl. rewrite app_nil_r. reflexivity.
  - rewrite IH, Hstep. rewrite <- app_assoc. reflexivity.
Qed.


Lemma prepareBorderFromCustomAddedRange_calls rowObj range p :
  Entry.range rowObj = Some range ->
  calls (prepareBorderFromCustomAddedRange rowObj p)
  = calls p ++ (cellsRowMajor range ≫= rangeCellCalls range).
Proof.
  intros Hrange. unfold prepareBorderFromCustomAddedRange. rewrite Hrange.
  rewrite (rangeEach_nested (rangeCell rowObj range)).
  apply (foldl_cell_calls (rangeCellCalls range)
           (fun k => rangeCell rowObj range k.1 k.2)).
  intros [r c] q. unfold rangeCell, rangeCellCalls. simpl.
  rewrite <- (rangeCellBorder_add rowObj).
  destruct (rangeCellBorder rowObj range r c) as [border add]. simpl.
  destruct (0 <? add).
  - rewrite insertBorderIntoSettings_push. simpl.
    rewrite <- app_assoc. reflexivity.
  - rewrite app_nil_r. reflexivity.
Qed.

(** C3.  A range entry gives each named side to the cells on that side's
    edge of the rectangle only: [top] where the row is [range.from.row],
    [bottom] where it is [range.to.row], [left] where the column is
    [range.from.col], [right] where it is [range.to.col]; every other
    side of a written descriptor is hidden, so a corner cell carries the
    two sides of its two edges.  A cell that meets no boundary condition,
    inside the rectangle or outside, keeps the metadata it had, and the
    calls made are one [setCellMeta] and one registration per boundary
    cell, row by row. *)
Theorem range_entry_sides_follow_the_boundary rowObj range p :
  Entry.range rowObj = Some range ->
  let p' := prepareBorderFromCustomAddedRange rowObj p in
  calls p' = calls p ++ (cellsRowMajor range ≫= rangeCellCalls range)
  /\ forall r c,
       if insideRange range r c && onBoundary range r c then
         exists border,
           cellMeta p' !! (r, c) = Some border
           /\ get border "top"
              = (if r =? row (from range) then namedSide (Entry.top rowObj)
                 else createSingleEmptyBorder)
           /\ get border "bottom"
              = (if r =? row (to range) then namedSide (Entry.bottom rowObj)
                 else createSingleEmptyBorder)
           /\ get border "left"
              = (if c =? col (from range) then namedSide (Entry.left rowObj)
                 else createSingleEmptyBorder)
           /\ get border "right"
              = (if c =? col (to range) then namedSide (Entry.right rowObj)
                 else createSingleEmptyBorder)
       else cellMeta p' !! (r, c) = cellMeta p !! (r, c).
Proof.
  intros Hrange p'. split.
  - apply prepareBorderFromCustomAddedRange_calls. exact Hrange.
  - intros r c. unfold p'.
    rewrite (prepareBorderFromCustomAddedRange_cellMeta _ range) by exact Hrange.
    destruct (insideRange range r c && onBoundary range r c); [|reflexivity].
    exists (fst (rangeCellBorder rowObj range r c)).
    split; [reflexivity|].
    destruct (rangeCellBorder_sides rowObj range r c) as (Ht & Hb & Hl & Hr & _).
    auto.
Qed.

(** The descriptor of a cell under an entry that names [top] alone. *)
Lemma rangeCellBorder_top_only rowObj range v r c :
  Entry.top rowObj = Some v ->
  Entry.bottom rowObj = None ->
  Entry.left rowObj = None ->
  Entry.right rowObj = None ->
  fst (rangeCellBorder rowObj range r c)
  = if r =? row (from range)
    then <["top" := v]> (createEmptyBorders r c)
    else createEmptyBorders r c.
Proof.
  intros Ht Hb Hl Hr. unfold rangeCellBorder. rewrite Ht, Hb, Hl, Hr.
  destruct (r =? row (from range)), (r =? row (to range)),
    (c =? col (from range)), (c =? col (to range)); reflexivity.
Qed.

(** C1, as the code has it.  Under a range entry that names [top] alone,
    every cell on the boundary of the rectangle receives a descriptor:
    the cells of row [range.from.row] gain the top side and no other, the
    remaining boundary cells receive the descriptor with four hidden
    sides.  Only the cells off the boundary keep what they had. *)
Theorem top_only_range_writes_the_whole_boundary rowObj range v p r c :
  Entry.range rowObj = Some range ->
  Entry.top rowObj = Some v ->
  Entry.bottom rowObj = None ->
  Entry.left rowObj = None ->
  Entry.right rowObj = None ->
  cellMeta (prepareBorderFromCustomAddedRange rowObj p) !! (r, c)
  = if insideRange range r c && onBoundary range r c
    then Some (if r =? row (from range)
               then <["top" := v]> (createEmptyBorders r c)
               else createEmptyBorders r c)
    else cellMeta p !! (r, c).
Proof.
  intros Hrange Ht Hb Hl Hr.
  rewrite (prepareBorderFromCustomAddedRange_cellMeta _ range) by exact Hrange.
  rewrite (rangeCellBorder_top_only _ _ v) by assumption.
  reflexivity.
Qed.

End RangeEntry.

Section RangeEntryExamples.
Import Sample.


(** The corner (0,0) of a 3x3 range with [top] and [left] carries both
    sides; the centre (1,1) is not written. *)
Lemma range_entry_sides_follow_the_boundary_witness :
  (exists border,
     cellMeta (prepareBorderFromCustomAddedRange topLeft blank) !! (0, 0)
       = Some border
     /\ get border "top" = thin /\ get border "bottom" = createSingleEmptyBorder
     /\ get border "left" = thin /\ get border "right" = createSingleEmptyBorder)
  /\ cellMeta (prepareBorderFromCustomAddedRange topLeft blank) !! (1, 1) = None.
Proof.
  pose proof (range_entry_sides_follow_the_boundary topLeft
                (mkRange (mkCoords 0 0) (mkCoords 2 2)) blank eq_refl) as [_ H].
  split.
  - exact (H 0 0).
  - exact (H 1 1).
Defined.

(** The 2x2 range with [bottom] alone: cell (0,0) held no descriptor and
    holds one afterwards, and so do all four cells. *)
Lemma bottom_only_range_writes_the_top_row :
  cellMeta blank !! (0, 0) = None
  /\ cellMeta (prepareBorderFromCustomAddedRange bottomOnly blank) !! (0, 0)
     = Some (createEmptyBorders 0 0)
  /\ cellMeta (prepareBorderFromCustomAddedRange bottomOnly blank) !! (0, 1)
     = Some (createEmptyBorders 0 1)
  /\ calls (prepareBorderFromCustomAddedRange bottomOnly blank)
     = [CallSetCellMeta 0 0; CallSelectionsPush;
        CallSetCellMeta 0 1; CallSelectionsPush;
        CallSetCellMeta 1 0; CallSelectionsPush;
        CallSetCellMeta 1 1; CallSelectionsPush].
Proof. repeat split. Qed.

Lemma top_only_range_writes_the_whole_boundary_witness :
  cellMeta (prepareBorderFromCustomAddedRange topOnly blank) !! (0, 1)
    = Some (<["top" := thin]> (createEmptyBorders 0 1))
  /\ cellMeta (prepareBorderFromCustomAddedRange topOnly blank) !! (1, 0)
    = Some (createEmptyBorders 1 0).
Proof.
  split.
  - exact (top_only_range_writes_the_whole_boundary topOnly square thin blank 0 1
             eq_refl eq_refl eq_refl eq_refl eq_refl).
  - exact (top_only_range_writes_the_whole_boundary topOnly square thin blank 1 0
             eq_refl eq_refl eq_refl eq_refl eq_refl).
Defined.

End RangeEntryExamples.

(** * The registry of selections *)

Section Registry.
Context {domApi : DomApi} {utils : BorderUtils}.
Implicit Types (p q : Plugin) (border : Descriptor).

(** Whatever the list holds, the new selection goes to its end. *)
Lemma insertBorderIntoSettings_appends border p :
  selections (insertBorderIntoSettings border p)
  = selections p ++ [newSelection border].
Proof. rewrite insertBorderIntoSettings_push. reflexivity. Qed.

Lemma upsert_found border (l : list Selection) i :
  findClassName (get border "className") l = Some i ->
  upsert border l = <[i := newSelection border]> l.
Proof. intros Hfind. unfold upsert. rewrite Hfind. reflexivity. Qed.

End Registry.

Section RegistryExamples.
Import Sample.


(** C2 on the code.  The registry holds the selection of cell (1,1);
    registering the descriptor of that cell again leaves two entries of
    the one class name, where the operation of the spec keeps one, in
    place. *)
Lemma insertBorderIntoSettings_appends_a_duplicate :
  let registered := insertBorderIntoSettings cell11 blank in
  selections registered = [newSelection cell11]
  /\ getSettingIndex (get cell11 "className") registered = -1
  /\ selections (insertBorderIntoSettings cell11 registered)
     = [newSelection cell11; newSelection cell11]
  /\ upsert cell11 (selections registered) = [newSelection cell11].
Proof. repeat split. Qed.

End RegistryExamples.

(** * Point entries *)

Section PointEntry.
Context {domApi : DomApi} {utils : BorderUtils}.
Implicit Types (p q : Plugin) (border : Descriptor).

Lemma extendDefaultBorder_sides border obj :
  get (extendDefaultBorder border obj) "top"
    = default (get border "top") (Entry.top obj)
  /\ get (extendDefaultBorder border obj) "right"
    = default (get border "right") (Entry.right obj)
  /\ get (extendDefaultBorder border obj) "bottom"
    = default (get border "bottom") (Entry.bottom obj)
  /\ get (extendDefaultBorder border obj) "left"
    = default (get border "left") (Entry.left obj).
Proof.
  unfold extendDefaultBorder. rewrite !get_assignOwn. simpl. repeat split.
Qed.

Lemma prepareBorderFromCustomAdded_cellMeta r c obj p :
  cellMeta (prepareBorderFromCustomAdded r c obj p)
  = <[(r, c) := extendDefaultBorder (createEmptyBorders r c) obj]> (cellMeta p).
Proof.
  unfold prepareBorderFromCustomAdded.
  rewrite insertBorderIntoSettings_push. reflexivity.
Qed.

(** C4, as the code has it.  A point entry stores a descriptor built from
    a fresh empty one: a side the entry names takes the entry's value, a
    side it does not name is hidden, and the stored descriptor of the
    cell is replaced whole, whatever it held.  No other cell changes. *)
Theorem point_entry_builds_on_empty_borders r c obj p :
  let border := extendDefaultBorder (createEmptyBorders r c) obj in
  cellMeta (prepareBorderFromCustomAdded r c obj p)
    = <[(r, c) := border]> (cellMeta p)
  /\ get border "top" = namedSide (Entry.top obj)
  /\ get border "right" = namedSide (Entry.right obj)
  /\ get border "bottom" = namedSide (Entry.bottom obj)
  /\ get border "left" = namedSide (Entry.left obj).
Proof.
  intros border. split.
  - apply prepareBorderFromCustomAdded_cellMeta.
  - apply (extendDefaultBorder_sides (createEmptyBorders r c) obj).
Qed.

End PointEntry.

Section PointEntryExamples.
Import Sample.


(** Cell (1,1) holds a red left side; the entry that names [top] alone
    leaves it with a hidden left side. *)
Lemma point_entry_hides_the_stored_left_side :
  let before := prepareBorderFromCustomAdded 1 1 leftRed blank in
  let after := prepareBorderFromCustomAdded 1 1 topBlue before in
  Entry.left topBlue = None
  /\ storedSide before 1 1 "left"
     = Some (VObject [("width", VNumber 2); ("color", VString "red")])
  /\ storedSide after 1 1 "left" = Some createSingleEmptyBorder.
Proof. repeat split. Qed.

End PointEntryExamples.

(** * Menu actions *)

Section MenuActions.
Context {domApi : DomApi} {utils : BorderUtils}.
Implicit Types (p q : Plugin) (border : Descriptor).

Lemma renders_app (l1 l2 : list Call) :
  renders (l1 ++ l2) = (renders l1 + renders l2)%nat.
Proof. unfold renders. rewrite List.filter_app, length_app. reflexivity. Qed.

Lemma setBorder_cellMeta r c place remove p :
  cellMeta (setBorder r c place remove p)
  = <[(r, c) := <[place := placedStyle remove]> (currentBorders r c p)]>
      (cellMeta p).
Proof.
  unfold setBorder. cbn zeta.
  unfold render. cbn [cellMeta logCall].
  rewrite insertBorderIntoSettings_push. cbn [cellMeta logCall setSelections].
  match goal with
  | |- cellMeta (removeBordersFromDom ?cls ?q) = _ =>
      destruct (removeBordersFromDom_sameStore cls q) as (-> & _)
  end.
  unfold placedStyle, currentBorders.
  destruct (truthy remove); reflexivity.
Qed.

(** [setBorder] pushes one selection, built on the descriptor it
    stored. *)
Lemma setBorder_registers r c place remove p :
  length (selections (setBorder r c place remove p))
    = S (length (selections p))
  /\ last (selections (setBorder r c place remove p))
    = Some (newSelection
              (<[place := placedStyle remove]> (currentBorders r c p))).
Proof.
  unfold setBorder. cbn zeta.
  unfold render. cbn [selections logCall].
  rewrite insertBorderIntoSettings_push. cbn [selections logCall setSelections].
  match goal with
  | |- context [selections (removeBordersFromDom ?cls ?q)] =>
      destruct (removeBordersFromDom_sameStore cls q) as (_ & -> & _)
  end.
  cbn [selections setCellMeta logCall].
  rewrite length_app, last_snoc. cbn [length].
  unfold placedStyle, currentBorders.
  split; [lia|]. destruct (truthy remove); reflexivity.
Qed.

(** The calls of one [setBorder]: the metadata write, the purge of the
    cell's border nodes, the registration, and the redraw request last. *)
Lemma setBorder_calls r c place remove p :
  exists l,
    calls (setBorder r c place remove p)
    = calls p
      ++ CallSetCellMeta r c
         :: CallQuerySelectorAll ("." +:+ createClassName r c)
         :: l ++ [CallSelectionsPush; CallRender]
    /\ Forall (fun c => isDomCall c = true) l
    /\ renders l = 0%nat.
Proof.
  unfold setBorder. cbn zeta.
  unfold render. cbn [calls logCall].
  rewrite insertBorderIntoSettings_push. cbn [calls logCall setSelections].
  match goal with
  | |- context [removeBordersFromDom ?cls ?q] =>
      destruct (removeBordersFromDom_calls cls q) as (l & -> & Hdom & _ & Hr)
  end.
  exists l. split; [|split; assumption].
  cbn [calls setCellMeta logCall].
  rewrite <- !app_assoc. reflexivity.
Qed.

Lemma setBorder_renders r c place remove p :
  renders (calls (setBorder r c place remove p)) = S (renders (calls p)).
Proof.
  destruct (setBorder_calls r c place remove p) as (l & -> & _ & Hr).
  rewrite renders_app.
  change (CallSetCellMeta r c :: CallQuerySelectorAll ("." +:+ createClassName r c)
            :: l ++ [CallSelectionsPush; CallRender])
    with ([CallSetCellMeta r c; CallQuerySelectorAll ("." +:+ createClassName r c)]
            ++ l ++ [CallSelectionsPush; CallRender]).
  rewrite !renders_app, Hr. cbn. lia.
Qed.

Lemma removeAllBorders_cellMeta r c p :
  cellMeta (removeAllBorders r c p) = delete (r, c) (cellMeta p).
Proof.
  unfold removeAllBorders. cbn [cellMeta removeCellMeta logCall].
  destruct (removeBordersFromDom_sameStore (createClassName r c) p) as (-> & _).
  reflexivity.
Qed.

Lemma removeAllBorders_selections r c p :
  selections (removeAllBorders r c p) = selections p.
Proof.
  unfold removeAllBorders. cbn [selections removeCellMeta logCall].
  destruct (removeBordersFromDom_sameStore (createClassName r c) p) as (_ & -> & _).
  reflexivity.
Qed.

Lemma removeAllBorders_calls r c p :
  exists l,
    calls (removeAllBorders r c p)
    = calls p ++ CallQuerySelectorAll ("." +:+ createClassName r c)
                 :: l ++ [CallRemoveCellMeta r c]
    /\ Forall (fun c => isDomCall c = true) l
    /\ renders l = 0%nat.
Proof.
  unfold removeAllBorders. cbn [calls removeCellMeta logCall].
  destruct (removeBordersFromDom_calls (createClassName r c) p)
    as (l & -> & Hdom & _ & Hr).
  exists l. split; [|split; assumption].
  rewrite <- app_assoc. reflexivity.
Qed.

Lemma removeAllBorders_renders r c p :
  renders (calls (removeAllBorders r c p)) = renders (calls p).
Proof.
  destruct (removeAllBorders_calls r c p) as (l & -> & _ & Hr).
  rewrite renders_app.
  change (CallQuerySelectorAll ("." +:+ createClassName r c)
            :: l ++ [CallRemoveCellMeta r c])
    with ([CallQuerySelectorAll ("." +:+ createClassName r c)]
            ++ l ++ [CallRemoveCellMeta r c]).
  rewrite !renders_app, Hr. cbn. lia.
Qed.

Lemma currentBorders_ext r c p q :
  cellMeta p !! (r, c) = cellMeta q !! (r, c) ->
  currentBorders r c p = currentBorders r c q.
Proof. intros Heq. unfold currentBorders, getCellMeta. rewrite Heq. reflexivity. Qed.

(** [setBorder] along a list of distinct cells: each of them ends with
    the side set on the descriptor it had before the loop. *)
Lemma foldl_setBorder_cellMeta place remove (l : list (Z * Z)) :
  NoDup l ->
  forall p k,
    cellMeta (foldl (fun t j => setBorder j.1 j.2 place remove t) p l) !! k
    = if bool_decide (k ∈ l)
      then Some (<[place := placedStyle remove]> (currentBorders k.1 k.2 p))
      else cellMeta p !! k.
Proof.
  induction l as [|a l IH]; intros Hnd p k; cbn [foldl].
  - rewrite bool_decide_eq_false_2; [reflexivity|]. apply not_elem_of_nil.
  - apply NoDup_cons in Hnd. destruct Hnd as [Ha Hnd].
    rewrite IH by exact Hnd. destruct (decide (k ∈ l)) as [Hin|Hnin].
    + rewrite !bool_decide_eq_true_2; [|right; exact Hin|exact Hin].
      f_equal. f_equal. apply currentBorders_ext.
      rewrite setBorder_cellMeta. destruct k as [r c]. simpl.
      rewrite lookup_insert_ne; [reflexivity|]. destruct a. simpl. congruence.
    + rewrite (bool_decide_eq_false_2 _ Hnin). rewrite setBorder_cellMeta.
      destruct (decide (a = k)) as [->|Hne].
      * rewrite bool_decide_eq_true_2 by left.
        destruct k. simpl. rewrite lookup_insert_eq. reflexivity.
      * rewrite bool_decide_eq_false_2.
        -- destruct a. simpl. rewrite lookup_insert_ne by exact Hne. reflexivity.
        -- intros Hin. apply elem_of_cons in Hin. destruct Hin; congruence.
Qed.

(** A loop along one row: the cells [(r, c)] for [c] from [a] to [b]. *)
Lemma rangeEach_setBorder_row r a b place remove p c :
  cellMeta (rangeEach a b (fun i => setBorder r i place remove) p) !! (r, c)
  = if (a <=? c) && (c <=? b)
    then Some (<[place := placedStyle remove]> (currentBorders r c p))
    else cellMeta p !! (r, c).
Proof.
  unfold rangeEach.
  rewrite <- (foldl_fmap (fun t j => setBorder j.1 j.2 place remove t) p
                (seqZ a (b - a + 1)) (fun i => (r, i))).
  rewrite foldl_setBorder_cellMeta.
  - destruct ((a <=? c) && (c <=? b)) eqn:Hc.
    + rewrite bool_decide_eq_true_2; [reflexivity|].
      apply list_elem_of_fmap. exists c. split; [reflexivity|].
      apply elem_of_seqZ. apply andb_prop in Hc. lia.
    + rewrite bool_decide_eq_false_2; [reflexivity|].
      intros Hin. apply list_elem_of_fmap in Hin. destruct Hin as (i & Heq & Hi).
      inversion Heq; subst. apply elem_of_seqZ in Hi.
      apply andb_false_iff in Hc. lia.
  - apply NoDup_fmap_2; [|apply NoDup_seqZ]. intros x y Hxy. congruence.
Qed.

(** A loop along one column: the cells [(r, c)] for [r] from [a] to [b]. *)
Lemma rangeEach_setBorder_col c a b place remove p r :
  cellMeta (rangeEach a b (fun i => setBorder i c place remove) p) !! (r, c)
  = if (a <=? r) && (r <=? b)
    then Some (<[place := placedStyle remove]> (currentBorders r c p))
    else cellMeta p !! (r, c).
Proof.
  unfold rangeEach.
  rewrite <- (foldl_fmap (fun t j => setBorder j.1 j.2 place remove t) p
                (seqZ a (b - a + 1)) (fun i => (i, c))).
  rewrite foldl_setBorder_cellMeta.
  - destruct ((a <=? r) && (r <=? b)) eqn:Hc.
    + rewrite bool_decide_eq_true_2; [reflexivity|].
      apply list_elem_of_fmap. exists r. split; [reflexivity|].
      apply elem_of_seqZ. apply andb_prop in Hc. lia.
    + rewrite bool_decide_eq_false_2; [reflexivity|].
      intros Hin. apply list_elem_of_fmap in Hin. destruct Hin as (i & Heq & Hi).
      inversion Heq; subst. apply elem_of_seqZ in Hi.
      apply andb_false_iff in Hc. lia.
  - apply NoDup_fmap_2; [|apply NoDup_seqZ]. intros x y Hxy. congruence.
Qed.

Lemma prepareBorder_multiCell range place remove p :
  multiCell range = true ->
  prepareBorder range place remove p
  = if String.eqb place "noBorders" then
      rangeEach (col (from range)) (col (to range)) (fun colIndex =>
        rangeEach (row (from range)) (row (to range)) (fun rowIndex =>
          removeAllBorders rowIndex colIndex)) p
    else if String.eqb place "top" then
      rangeEach (col (from range)) (col (to range)) (fun topCol =>
        setBorder (row (from range)) topCol place remove) p
    else if String.eqb place "right" then
      rangeEach (row (from range)) (row (to range)) (fun rowRight =>
        setBorder rowRight (col (to range)) place VUndefined) p
    else if String.eqb place "bottom" then
      rangeEach (col (from range)) (col (to range)) (fun bottomCol =>
        setBorder (row (to range)) bottomCol place VUndefined) p
    else if String.eqb place "left" then
      rangeEach (row (from range)) (row (to range)) (fun rowLeft =>
        setBorder rowLeft (col (from range)) place VUndefined) p
    else p.
Proof.
  unfold multiCell, prepareBorder. intros Hmulti.
  apply negb_true_iff in Hmulti. rewrite Hmulti. reflexivity.
Qed.

(** C8.  Over a range of more than one cell, the [top] action hands the
    [remove] flag to [setBorder]: each cell of the first row ends with
    its top side hidden when the flag is truthy and with the default
    visible style otherwise.  The [right], [bottom] and [left] actions
    call [setBorder] without the flag: whatever its value, the outcome
    is that of the call without it, and the cells of the matching edge
    end with the default visible style on that side. *)
Theorem remove_flag_reaches_setBorder_for_top_only range remove p :
  multiCell range = true ->
  (forall c, col (from range) <= c <= col (to range) ->
     cellMeta (prepareBorder range "top" remove p) !! (row (from range), c)
     = Some (<["top" := if truthy remove then createSingleEmptyBorder
                        else createDefaultCustomBorder]>
               (currentBorders (row (from range)) c p)))
  /\ (prepareBorder range "right" remove p
        = prepareBorder range "right" VUndefined p
      /\ forall r, row (from range) <= r <= row (to range) ->
           cellMeta (prepareBorder range "right" remove p) !! (r, col (to range))
           = Some (<["right" := createDefaultCustomBorder]>
                     (currentBorders r (col (to range)) p)))
  /\ (prepareBorder range "bottom" remove p
        = prepareBorder range "bottom" VUndefined p
      /\ forall c, col (from range) <= c <= col (to range) ->
           cellMeta (prepareBorder range "bottom" remove p) !! (row (to range), c)
           = Some (<["bottom" := createDefaultCustomBorder]>
                     (currentBorders (row (to range)) c p)))
  /\ (prepareBorder range "left" remove p
        = prepareBorder range "left" VUndefined p
      /\ forall r, row (from range) <= r <= row (to range) ->
           cellMeta (prepareBorder range "left" remove p) !! (r, col (from range))
           = Some (<["left" := createDefaultCustomBorder]>
                     (currentBorders r (col (from range)) p))).
Proof.
  intros Hmulti. rewrite !prepareBorder_multiCell by exact Hmulti.
  cbn [String.eqb Ascii.eqb Bool.eqb].
  repeat split.
  - intros c Hc. rewrite rangeEach_setBorder_row.
    replace ((col (from range) <=? c) && (c <=? col (to range))) with true
      by (symmetry; apply andb_true_intro; split; lia).
    reflexivity.
  - intros r Hr. rewrite rangeEach_setBorder_col.
    replace ((row (from range) <=? r) && (r <=? row (to range))) with true
      by (symmetry; apply andb_true_intro; split; lia).
    reflexivity.
  - intros c Hc. rewrite rangeEach_setBorder_row.
    replace ((col (from range) <=? c) && (c <=? col (to range))) with true
      by (symmetry; apply andb_true_intro; split; lia).
    reflexivity.
  - intros r Hr. rewrite rangeEach_setBorder_col.
    replace ((row (from range) <=? r) && (r <=? row (to range))) with true
      by (symmetry; apply andb_true_intro; split; lia).
    reflexivity.
Qed.

(** C9, as the code has it.  Over a range of more than one cell, a place
    that is none of [noBorders], [top], [right], [bottom], [left] falls
    to the [default] arm of the switch: the plugin state, the tree and
    the log are what they were. *)
Theorem unknown_place_over_many_cells_does_nothing range place remove p :
  multiCell range = true ->
  place <> "noBorders" -> place <> "top" -> place <> "right" ->
  place <> "bottom" -> place <> "left" ->
  prepareBorder range place remove p = p.
Proof.
  intros Hmulti Hn Ht Hr Hb Hl.
  rewrite prepareBorder_multiCell by exact Hmulti.
  apply String.eqb_neq in Hn, Ht, Hr, Hb, Hl.
  rewrite Hn, Ht, Hr, Hb, Hl. reflexivity.
Qed.

(** C5, as the code has it.  [removeAllBorders] forgets the metadata
    entry of the cell, so that the next read finds none, and runs the
    purge of the cell's border nodes on the tree.  The list of selections
    is left as it was, the cell's entry included, and no redraw is
    requested. *)
Theorem removeAllBorders_keeps_the_selection r c p :
  let p' := removeAllBorders r c p in
  getCellMeta r c p' = None
  /\ cellMeta p' = delete (r, c) (cellMeta p)
  /\ dom p' = dom (removeBordersFromDom (createClassName r c) p)
  /\ selections p' = selections p
  /\ renders (calls p') = renders (calls p).
Proof.
  intros p'. unfold p', getCellMeta.
  rewrite removeAllBorders_cellMeta, removeAllBorders_selections,
    removeAllBorders_renders.
  repeat split. apply lookup_delete_eq.
Qed.

End MenuActions.

Section MenuActionExamples.
Import Sample.

Lemma remove_flag_reaches_setBorder_for_top_only_witness :
  cellMeta (prepareBorder square "top" (VBoolean true) blank) !! (0, 0)
    = Some (<["top" := createSingleEmptyBorder]> (createEmptyBorders 0 0))
  /\ cellMeta (prepareBorder square "bottom" (VBoolean true) blank) !! (1, 0)
    = Some (<["bottom" := createDefaultCustomBorder]> (createEmptyBorders 1 0)).
Proof.
  destruct (remove_flag_reaches_setBorder_for_top_only square (VBoolean true)
              blank eq_refl) as (Htop & _ & (_ & Hbottom) & _).
  split.
  - apply (Htop 0). simpl. lia.
  - apply (Hbottom 0). simpl. lia.
Defined.

Lemma unknown_place_over_many_cells_does_nothing_witness :
  prepareBorder square "diagonal" (VBoolean false) blank = blank.
Proof.
  apply unknown_place_over_many_cells_does_nothing;
    [reflexivity | discriminate ..].
Defined.

(** On a single cell the place is not looked at: [setBorder] is called
    with it, stores a descriptor, registers it and asks for a redraw. *)
Lemma unknown_place_on_one_cell_writes :
  let one := mkRange (mkCoords 0 0) (mkCoords 0 0) in
  let after := prepareBorder one "diagonal" (VBoolean false) blank in
  cellMeta blank !! (0, 0) = None
  /\ storedSide after 0 0 "diagonal" = Some createDefaultCustomBorder
  /\ length (selections after) = 1%nat
  /\ calls after
     = [CallSetCellMeta 0 0; CallQuerySelectorAll ".border_row0col0";
        CallSelectionsPush; CallRender].
Proof. repeat split. Qed.

(** Cell (1,1) is annotated, then cleared: its metadata is gone, the
    wrapper of its border node has left the tree, and its selection is
    still the one entry of the list. *)
Lemma removeAllBorders_leaves_the_selection_behind :
  let annotated := prepareBorderFromCustomAdded 1 1 leftRed blank in
  let cleared := removeAllBorders 1 1 annotated in
  getCellMeta 1 1 cleared = None
  /\ query (dom cleared) ".border_row1col1"
     = [mkSNode 6 "TD" "border_row1col1"]
  /\ selections cleared = [newSelection cell11]
  /\ get (settings (newSelection cell11)) "className"
     = VString (createClassName 1 1).
Proof. repeat split. Qed.

End MenuActionExamples.

(** * Applying the configuration *)

Section Declarative.
Context {domApi : DomApi} {utils : BorderUtils}.
Implicit Types (p q : Plugin) (border : Descriptor).

Lemma writesOnly_refl p : writesOnly p p.
Proof.
  repeat split. exists []. split; [|constructor].
  rewrite app_nil_r. reflexivity.
Qed.

Lemma writesOnly_trans p q r : writesOnly p q -> writesOnly q r -> writesOnly p r.
Proof.
  intros (A1 & A2 & A3 & w1 & A4 & A5) (B1 & B2 & B3 & w2 & B4 & B5).
  repeat split; try congruence.
  exists (w1 ++ w2). split.
  - rewrite B4, A4, app_assoc. reflexivity.
  - apply Forall_app. split; assumption.
Qed.

Lemma store_border_writesOnly r c border p :
  writesOnly p (insertBorderIntoSettings border (setCellMeta r c border p)).
Proof.
  rewrite insertBorderIntoSettings_push. repeat split.
  exists [CallSetCellMeta r c; CallSelectionsPush]. split.
  - simpl. rewrite <- app_assoc. reflexivity.
  - repeat constructor.
Qed.

Lemma createCustomBorder_writesOnly entry p :
  writesOnly p (createCustomBorder entry p).
Proof.
  unfold createCustomBorder. destruct (Entry.range entry) as [range|] eqn:Hrange.
  - unfold prepareBorderFromCustomAddedRange. rewrite Hrange.
    apply rangeEach_invariant; [apply writesOnly_refl|].
    intros r t _ Ht. apply rangeEach_invariant; [exact Ht|].
    intros c u _ Hu. unfold rangeCell.
    destruct (rangeCellBorder entry range r c) as [border add].
    destruct (0 <? add); [|exact Hu].
    eapply writesOnly_trans; [exact Hu|]. apply store_border_writesOnly.
  - apply store_border_writesOnly.
Qed.

Lemma foldl_createCustomBorder_writesOnly entries p :
  writesOnly p (foldl (fun t entry => createCustomBorder entry t) p entries).
Proof.
  revert p. induction entries as [|entry entries IH]; intros p; simpl.
  - apply writesOnly_refl.
  - eapply writesOnly_trans; [apply createCustomBorder_writesOnly|apply IH].
Qed.

(** The loop over the indices of the array is the fold over its
    entries; the two redraw calls follow it. *)
Lemma createCustomBorders_array entries p :
  createCustomBorders (SettingArray entries) p
  = draw (render (foldl (fun t entry => createCustomBorder entry t) p entries)).
Proof.
  unfold createCustomBorders.
  rewrite (rangeEach_elements entries createCustomBorder). reflexivity.
Qed.

(** Whatever is handed to [createCustomBorders], the log grows by write
    calls followed by one [render] and one [draw]. *)
Lemma createCustomBorders_shape borders p :
  dom (createCustomBorders borders p) = dom p
  /\ customBorders (createCustomBorders borders p) = customBorders p
  /\ savedSettings (createCustomBorders borders p) = savedSettings p
  /\ exists w,
       calls (createCustomBorders borders p)
       = calls p ++ w ++ [CallRender; CallDraw]
       /\ Forall (fun c => isWrite c = true) w.
Proof.
  destruct borders as [|b|entries].
  - repeat split. exists []. split; [|constructor]. simpl.
    rewrite <- app_assoc. reflexivity.
  - repeat split. exists []. split; [|constructor]. simpl.
    rewrite <- app_assoc. reflexivity.
  - rewrite createCustomBorders_array.
    destruct (foldl_createCustomBorder_writesOnly entries p)
      as (Hd & Hc & Hs & w & Hw & Hall).
    cbn [dom customBorders savedSettings calls draw render logCall].
    repeat split; try assumption.
    exists w. split; [|exact Hall].
    rewrite Hw, <- !app_assoc. reflexivity.
Qed.

(** Each cell is either written by an entry with a descriptor that does
    not depend on the state, or left alone. *)
Lemma createCustomBorder_cellMeta_stateless entry p q k :
  cellMeta (createCustomBorder entry p) !! k
    = cellMeta (createCustomBorder entry q) !! k
  \/ (cellMeta (createCustomBorder entry p) !! k = cellMeta p !! k
      /\ cellMeta (createCustomBorder entry q) !! k = cellMeta q !! k).
Proof.
  unfold createCustomBorder. destruct (Entry.range entry) as [range|] eqn:Hrange.
  - destruct k as [r c].
    rewrite !(prepareBorderFromCustomAddedRange_cellMeta _ range) by exact Hrange.
    destruct (insideRange range r c && onBoundary range r c); auto.
  - rewrite !prepareBorderFromCustomAdded_cellMeta.
    destruct (decide ((Entry.row entry, Entry.col entry) = k)) as [->|Hne].
    + left. rewrite !lookup_insert_eq. reflexivity.
    + right. rewrite !lookup_insert_ne by exact Hne. auto.
Qed.

Lemma foldl_createCustomBorder_cellMeta_stateless entries p q k :
  cellMeta (foldl (fun t entry => createCustomBorder entry t) p entries) !! k
    = cellMeta (foldl (fun t entry => createCustomBorder entry t) q entries) !! k
  \/ (cellMeta (foldl (fun t entry => createCustomBorder entry t) p entries) !! k
        = cellMeta p !! k
      /\ cellMeta (foldl (fun t entry => createCustomBorder entry t) q entries) !! k
        = cellMeta q !! k).
Proof.
  revert p q. induction entries as [|entry entries IH]; intros p q; simpl.
  - right. auto.
  - destruct (IH (createCustomBorder entry p) (createCustomBorder entry q))
      as [Heq|[Hp Hq]]; [left; exact Heq|].
    rewrite Hp, Hq. apply createCustomBorder_cellMeta_stateless.
Qed.

Lemma purgeBorderCells_sameStore p : sameStore p (purgeBorderCells p).
Proof.
  unfold purgeBorderCells. apply rangeEach_invariant.
  - repeat split.
  - intros i t _ Ht.
    destruct (querySelectorAll (dom p) borderCellsSelector !! Z.to_nat i)
      as [node|]; [|exact Ht].
    eapply sameStore_trans; [exact Ht|apply removeBordersFromDom_sameStore].
Qed.

(** The purge reads and prunes the tree and calls nothing else. *)
Lemma purgeBorderCells_calls p :
  exists l,
    calls (purgeBorderCells p)
    = calls p ++ CallQuerySelectorAll borderCellsSelector :: l
    /\ Forall (fun c => isDomCall c = true) l.
Proof.
  unfold purgeBorderCells.
  apply (rangeEach_invariant (fun q => exists l,
    calls q = calls p ++ CallQuerySelectorAll borderCellsSelector :: l
    /\ Forall (fun c => isDomCall c = true) l)).
  - exists []. split; [reflexivity|constructor].
  - intros i t _ (l & Hl & Hdom).
    destruct (querySelectorAll (dom p) borderCellsSelector !! Z.to_nat i)
      as [node|]; [|eauto].
    destruct (removeBordersFromDom_calls (nodeClassName node) t)
      as (l' & Hl' & Hdom' & _).
    exists (l ++ CallQuerySelectorAll ("." +:+ nodeClassName node) :: l').
    split.
    + rewrite Hl', Hl, <- app_assoc. reflexivity.
    + apply Forall_app. split; [exact Hdom|].
      constructor; [reflexivity|exact Hdom'].
Qed.

Lemma setsBordersSettings_unfold p :
  setsBordersSettings p
  = let q := purgeBorderCells p in
    if setting_truthy (customBorders p) then
      match customBorders p with
      | SettingArray entries =>
          createCustomBorders (SettingArray entries) (setSavedSettings entries q)
      | SettingBoolean _ =>
          createCustomBorders
            (match savedSettings q with
             | Some saved => SettingArray saved
             | None => customBorders p
             end) q
      | SettingUndefined => q
      end
    else q.
Proof.
  unfold setsBordersSettings, purgeBorderCells. cbv zeta.
  destruct (customBorders p); reflexivity.
Qed.

(** C6, as the code has it.  Applying a configuration array makes all
    its metadata writes and registrations first and then asks for a
    redraw once ([render], followed by the forced [draw]).  A menu action
    asks for the redraw inside [setBorder], as the last call for each
    cell and after that cell's writes: over a range of more than one cell
    the [top] and [bottom] actions request it once per column of the
    range, [left] and [right] once per row, and [noBorders] never. *)
Theorem redraw_once_per_array_and_once_per_cell_set :
  (forall entries p, exists w,
     calls (createCustomBorders (SettingArray entries) p)
     = calls p ++ w ++ [CallRender; CallDraw]
     /\ Forall (fun c => isWrite c = true) w)
  /\ (forall r c place remove p, exists l,
        calls (setBorder r c place remove p)
        = calls p
          ++ CallSetCellMeta r c
             :: CallQuerySelectorAll ("." +:+ createClassName r c)
             :: l ++ [CallSelectionsPush; CallRender]
        /\ Forall (fun c => isDomCall c = true) l)
  /\ (forall range remove p,
        multiCell range = true ->
        let columns := Z.to_nat (col (to range) - col (from range) + 1) in
        let rows := Z.to_nat (row (to range) - row (from range) + 1) in
        renders (calls (prepareBorder range "top" remove p))
          = (renders (calls p) + columns)%nat
        /\ renders (calls (prepareBorder range "bottom" remove p))
          = (renders (calls p) + columns)%nat
        /\ renders (calls (prepareBorder range "left" remove p))
          = (renders (calls p) + rows)%nat
        /\ renders (calls (prepareBorder range "right" remove p))
          = (renders (calls p) + rows)%nat
        /\ renders (calls (prepareBorder range "noBorders" remove p))
          = renders (calls p)).
Proof.
  split; [|split].
  - intros entries p.
    destruct (createCustomBorders_shape (SettingArray entries) p)
      as (_ & _ & _ & w & Hw & Hall).
    exists w. split; assumption.
  - intros r c place remove p.
    destruct (setBorder_calls r c place remove p) as (l & Hl & Hdom & _).
    exists l. split; assumption.
  - intros range remove p Hmulti columns rows.
    rewrite !prepareBorder_multiCell by exact Hmulti.
    cbn [String.eqb Ascii.eqb Bool.eqb].
    repeat split.
    + apply (rangeEach_count (fun q => renders (calls q))).
      intros i t. apply setBorder_renders.
    + apply (rangeEach_count (fun q => renders (calls q))).
      intros i t. apply setBorder_renders.
    + apply (rangeEach_count (fun q => renders (calls q))).
      intros i t. apply setBorder_renders.
    + apply (rangeEach_count (fun q => renders (calls q))).
      intros i t. apply setBorder_renders.
    + apply (rangeEach_invariant (fun q => renders (calls q) = renders (calls p)));
        [reflexivity|].
      intros c t _ Ht.
      apply (rangeEach_invariant (fun q => renders (calls q) = renders (calls p)));
        [exact Ht|].
      intros r u _ Hu. rewrite removeAllBorders_renders. exact Hu.
Qed.

(** C7.  A configuration that is an array is remembered in
    [savedSettings] and applied.  A configuration that is [true] applies
    the remembered array when there is one: every cell that array writes
    holds the descriptor it held after the array itself was applied,
    from whatever state either run started, and every other cell is left
    alone by both.  With nothing remembered, [true] itself goes to
    [createCustomBorders], which stores nothing. *)
Theorem saved_array_is_applied_again :
  (forall entries p,
     customBorders p = SettingArray entries ->
     savedSettings (setsBordersSettings p) = Some entries
     /\ setsBordersSettings p
        = createCustomBorders (SettingArray entries)
            (setSavedSettings entries (purgeBorderCells p)))
  /\ (forall saved p,
        customBorders p = SettingBoolean true ->
        savedSettings p = Some saved ->
        setsBordersSettings p
          = createCustomBorders (SettingArray saved) (purgeBorderCells p)
        /\ savedSettings (setsBordersSettings p) = Some saved
        /\ forall p0 k,
             customBorders p0 = SettingArray saved ->
             cellMeta (setsBordersSettings p) !! k
               = cellMeta (setsBordersSettings p0) !! k
             \/ (cellMeta (setsBordersSettings p) !! k = cellMeta p !! k
                 /\ cellMeta (setsBordersSettings p0) !! k = cellMeta p0 !! k))
  /\ (forall p,
        customBorders p = SettingBoolean true ->
        savedSettings p = None ->
        setsBordersSettings p
          = createCustomBorders (SettingBoolean true) (purgeBorderCells p)
        /\ cellMeta (setsBordersSettings p) = cellMeta p
        /\ selections (setsBordersSettings p) = selections p
        /\ savedSettings (setsBordersSettings p) = None).
Proof.
  split; [|split].
  - intros entries p Hcfg. rewrite setsBordersSettings_unfold. cbv zeta.
    rewrite Hcfg. cbn [setting_truthy].
    split; [|reflexivity].
    destruct (createCustomBorders_shape (SettingArray entries)
                (setSavedSettings entries (purgeBorderCells p)))
      as (_ & _ & -> & _).
    reflexivity.
  - intros saved p Hcfg Hsaved.
    destruct (purgeBorderCells_sameStore p) as (Hmeta & _ & _ & Hs).
    assert (Hrun : setsBordersSettings p
                   = createCustomBorders (SettingArray saved) (purgeBorderCells p)).
    { rewrite setsBordersSettings_unfold. cbv zeta.
      rewrite Hcfg. cbn [setting_truthy]. rewrite Hs, Hsaved.
      reflexivity. }
    split; [exact Hrun|]. split.
    + rewrite Hrun.
      destruct (createCustomBorders_shape (SettingArray saved) (purgeBorderCells p))
        as (_ & _ & -> & _).
      rewrite Hs. exact Hsaved.
    + intros p0 k Hcfg0. rewrite Hrun.
      rewrite (setsBordersSettings_unfold p0). cbv zeta.
      rewrite Hcfg0. cbn [setting_truthy].
      rewrite !createCustomBorders_array. cbn [cellMeta draw render logCall].
      destruct (purgeBorderCells_sameStore p0) as (Hmeta0 & _).
      rewrite <- Hmeta.
      replace (cellMeta p0) with
        (cellMeta (setSavedSettings saved (purgeBorderCells p0)))
        by (cbn; exact Hmeta0).
      apply foldl_createCustomBorder_cellMeta_stateless.
  - intros p Hcfg Hsaved.
    destruct (purgeBorderCells_sameStore p) as (Hmeta & Hsel & _ & Hs).
    rewrite setsBordersSettings_unfold. cbv zeta.
    rewrite Hcfg. cbn [setting_truthy]. rewrite Hs, Hsaved.
    cbn. repeat split; congruence.
Qed.








End Declarative.

Section DeclarativeExamples.
Import Sample.

(** The [top] action over two cells of one row: two redraw requests, the
    first of them before the metadata of the second cell is written. *)
Lemma top_action_over_two_cells_renders_twice :
  calls (prepareBorder pair "top" (VBoolean false) blank)
  = [CallSetCellMeta 0 0; CallQuerySelectorAll ".border_row0col0";
     CallSelectionsPush; CallRender;
     CallSetCellMeta 0 1; CallQuerySelectorAll ".border_row0col1";
     CallSelectionsPush; CallRender]
  /\ renders (calls (prepareBorder pair "top" (VBoolean false) blank)) = 2%nat.
Proof. repeat split. Qed.

Lemma redraw_once_per_array_and_once_per_cell_set_witness :
  renders (calls (prepareBorder square "left" (VBoolean false) blank)) = 2%nat
  /\ renders (calls (prepareBorder square "noBorders" (VBoolean false) blank))
     = 0%nat.
Proof.
  destruct redraw_once_per_array_and_once_per_cell_set as (_ & _ & Hrange).
  destruct (Hrange square (VBoolean false) blank eq_refl)
    as (_ & _ & Hleft & _ & Hnone).
  split; [exact Hleft | exact Hnone].
Defined.

(** The array is applied, the border of cell (1,1) is removed from the
    menu, and the plugin is enabled again with [customBorders: true]. *)
Lemma saved_array_is_applied_again_witness :
  let first := setsBordersSettings configured in
  let later := updateSettings (SettingBoolean true) (removeAllBorders 1 1 first) in
  savedSettings first = Some [leftRed]
  /\ cellMeta first !! (1, 1) = Some cell11
  /\ cellMeta later !! (1, 1) = None
  /\ setsBordersSettings later
     = createCustomBorders (SettingArray [leftRed]) (purgeBorderCells later)
  /\ cellMeta (setsBordersSettings later) !! (1, 1) = Some cell11.
Proof.
  intros first later.
  destruct saved_array_is_applied_again as (Harray & Htrue & _).
  destruct (Harray [leftRed] configured eq_refl) as (Hsaved & _).
  destruct (Htrue [leftRed] later eq_refl eq_refl) as (Hrun & _).
  split; [exact Hsaved|].
  split; [reflexivity|].
  split; [reflexivity|].
  split; [exact Hrun | reflexivity].
Defined.



End DeclarativeExamples.

(** * Further properties of the registry and the tree *)

Section RegistryAndTree.
Context {domApi : DomApi} {utils : BorderUtils}.
Implicit Types (p q : Plugin) (border : Descriptor).

(** X1.  [getSettingIndex] answers [-1] for every class name and every
    list of selections, so [insertBorderIntoSettings] never assigns: the
    list keeps all its entries at their positions and gains the new
    selection at its end; metadata and tree are not touched. *)
Theorem insertBorderIntoSettings_only_appends (className : Value) border p :
  getSettingIndex className p = -1
  /\ selections (insertBorderIntoSettings border p)
     = selections p ++ [newSelection border]
  /\ length (selections (insertBorderIntoSettings border p))
     = S (length (selections p))
  /\ cellMeta (insertBorderIntoSettings border p) = cellMeta p
  /\ dom (insertBorderIntoSettings border p) = dom p
  /\ calls (insertBorderIntoSettings border p) = calls p ++ [CallSelectionsPush].
Proof.
  rewrite getSettingIndex_minus_one, insertBorderIntoSettings_push.
  cbn [selections cellMeta dom calls logCall setSelections].
  rewrite length_app. cbn [length]. repeat split. lia.
Qed.

(** X2.  When every node found under the class is a table cell (or none
    is found), [removeBordersFromDom] removes nothing: the query is
    logged and the state is otherwise the one it was given. *)
Theorem removeBordersFromDom_spares_table_cells cls p :
  Forall (fun node => nodeName node = "TD")
         (querySelectorAll (dom p) ("." +:+ cls)) ->
  removeBordersFromDom cls p
  = logCall (CallQuerySelectorAll ("." +:+ cls)) p.
Proof.
  intros Hcells. unfold removeBordersFromDom.
  apply (rangeEach_invariant
           (fun q => q = logCall (CallQuerySelectorAll ("." +:+ cls)) p));
    [reflexivity|].
  intros i t _ ->.
  destruct (querySelectorAll (dom p) ("." +:+ cls) !! Z.to_nat i) as [node|] eqn:Hi;
    [|reflexivity].
  apply list_elem_of_lookup_2 in Hi.
  rewrite Forall_forall in Hcells. rewrite (Hcells node Hi). reflexivity.
Qed.

(** X3.  Whatever the tree holds, [removeBordersFromDom] leaves metadata,
    selections, the setting and [savedSettings] as they were; its calls
    are one query followed by calls on the tree only: no metadata write,
    no registration, no redraw request. *)
Theorem removeBordersFromDom_touches_the_tree_only cls p :
  cellMeta (removeBordersFromDom cls p) = cellMeta p
  /\ selections (removeBordersFromDom cls p) = selections p
  /\ customBorders (removeBordersFromDom cls p) = customBorders p
  /\ savedSettings (removeBordersFromDom cls p) = savedSettings p
  /\ exists l,
       calls (removeBordersFromDom cls p)
       = calls p ++ CallQuerySelectorAll ("." +:+ cls) :: l
       /\ Forall (fun c => isDomCall c = true) l
       /\ Forall (fun c => isWrite c = false) l
       /\ renders l = 0%nat.
Proof.
  destruct (removeBordersFromDom_sameStore cls p) as (Hm & Hs & Hc & Hsv).
  repeat (split; [assumption|]).
  apply removeBordersFromDom_calls.
Qed.

End RegistryAndTree.

Section RegistryAndTreeExamples.
Import Sample.

Lemma removeBordersFromDom_spares_table_cells_witness :
  removeBordersFromDom "border_row1col1" bare
  = logCall (CallQuerySelectorAll ".border_row1col1") bare.
Proof.
  apply removeBordersFromDom_spares_table_cells.
  repeat constructor.
Defined.

End RegistryAndTreeExamples.

(** * Further properties of the menu actions *)

Section SetBorder.
Context {domApi : DomApi} {utils : BorderUtils}.
Implicit Types (p q : Plugin) (border : Descriptor).

(** The descriptor [setBorder] works on passes the [border] test. *)
Lemma currentBorders_has_border r c p :
  strict_equal (get (currentBorders r c p) "border") VUndefined = false.
Proof.
  unfold currentBorders.
  destruct (getCellMeta r c p) as [meta|]; [|reflexivity].
  destruct (strict_equal (get meta "border") VUndefined) eqn:Hb;
    [reflexivity|exact Hb].
Qed.

Lemma placedStyle_defined remove :
  strict_equal (placedStyle remove) VUndefined = false.
Proof. unfold placedStyle. destruct (truthy remove); reflexivity. Qed.

(** After [setBorder] the cell holds a descriptor that the next
    [setBorder] on the cell takes up as it is. *)
Lemma currentBorders_setBorder r c place remove p :
  currentBorders r c (setBorder r c place remove p)
  = <[place := placedStyle remove]> (currentBorders r c p).
Proof.
  unfold currentBorders at 1. unfold getCellMeta.
  rewrite setBorder_cellMeta, lookup_insert_eq.
  rewrite get_insert. destruct (decide (place = "border")).
  - rewrite placedStyle_defined. reflexivity.
  - rewrite currentBorders_has_border. reflexivity.
Qed.

Lemma setBorder_twice_cellMeta r c place1 remove1 place2 remove2 p :
  cellMeta (setBorder r c place2 remove2 (setBorder r c place1 remove1 p))
  = <[(r, c) := <[place2 := placedStyle remove2]>
                  (<[place1 := placedStyle remove1]> (currentBorders r c p))]>
      (cellMeta p).
Proof.
  rewrite setBorder_cellMeta, currentBorders_setBorder, setBorder_cellMeta.
  apply insert_insert_eq.
Qed.

(** X4.  Two [setBorder] calls on one cell for two different places
    leave the same metadata in either order. *)
Theorem setBorder_places_commute r c place1 remove1 place2 remove2 p :
  place1 <> place2 ->
  cellMeta (setBorder r c place2 remove2 (setBorder r c place1 remove1 p))
  = cellMeta (setBorder r c place1 remove1 (setBorder r c place2 remove2 p)).
Proof.
  intros Hne. rewrite !setBorder_twice_cellMeta.
  f_equal. apply insert_insert_ne. congruence.
Qed.

(** X5.  Two [setBorder] calls on one cell for the same place leave the
    metadata of the second call alone: the later flag decides whether
    the side is hidden or drawn. *)
Theorem setBorder_last_call_wins r c place remove1 remove2 p :
  cellMeta (setBorder r c place remove2 (setBorder r c place remove1 p))
  = cellMeta (setBorder r c place remove2 p).
Proof.
  rewrite setBorder_twice_cellMeta, setBorder_cellMeta.
  f_equal. apply insert_insert_eq.
Qed.

(** X6.  On a cell whose stored descriptor has a [border] property,
    [setBorder] writes back that descriptor with the one place changed:
    every other property of it, and every other cell, stays. *)
Theorem setBorder_updates_the_stored_descriptor r c place remove meta p :
  cellMeta p !! (r, c) = Some meta ->
  strict_equal (get meta "border") VUndefined = false ->
  cellMeta (setBorder r c place remove p)
  = <[(r, c) := <[place := if truthy remove then createSingleEmptyBorder
                           else createDefaultCustomBorder]> meta]>
      (cellMeta p).
Proof.
  intros Hmeta Hborder. rewrite setBorder_cellMeta.
  unfold currentBorders, getCellMeta. rewrite Hmeta, Hborder. reflexivity.
Qed.

(** X7.  On a cell whose stored value has no [border] property,
    [setBorder] takes the cell for one without borders: it starts from
    the empty descriptor, and what was stored is overwritten. *)
Theorem setBorder_discards_a_descriptor_without_border r c place remove meta p :
  cellMeta p !! (r, c) = Some meta ->
  meta !! "border" = None ->
  cellMeta (setBorder r c place remove p)
  = <[(r, c) := <[place := if truthy remove then createSingleEmptyBorder
                           else createDefaultCustomBorder]>
                  (createEmptyBorders r c)]>
      (cellMeta p).
Proof.
  intros Hmeta Hborder. rewrite setBorder_cellMeta.
  unfold currentBorders, getCellMeta, get. rewrite Hmeta, Hborder. reflexivity.
Qed.

End SetBorder.

Section SetBorderExamples.
Import Sample.

Lemma setBorder_places_commute_witness :
  cellMeta (setBorder 0 0 "left" (VBoolean true)
              (setBorder 0 0 "top" (VBoolean false) blank))
  = cellMeta (setBorder 0 0 "top" (VBoolean false)
                (setBorder 0 0 "left" (VBoolean true) blank)).
Proof. apply setBorder_places_commute. discriminate. Defined.

(** Cell (1,1) is configured with a red left side; the menu adds a top
    side and the left side is still the red one. *)
Lemma setBorder_updates_the_stored_descriptor_witness :
  let annotated := prepareBorderFromCustomAdded 1 1 leftRed blank in
  cellMeta (setBorder 1 1 "top" (VBoolean false) annotated)
  = <[(1, 1) := <["top" := createDefaultCustomBorder]> cell11]>
      (cellMeta annotated).
Proof.
  intros annotated.
  exact (setBorder_updates_the_stored_descriptor 1 1 "top" (VBoolean false)
           cell11 annotated eq_refl eq_refl).
Defined.

(** The stored top side of cell (1,1) is lost when the menu sets the
    left side. *)
Lemma setBorder_discards_a_descriptor_without_border_witness :
  storedSide stray 1 1 "top" = Some thin
  /\ cellMeta (setBorder 1 1 "left" (VBoolean false) stray)
     = <[(1, 1) := <["left" := createDefaultCustomBorder]>
                     (createEmptyBorders 1 1)]> (cellMeta stray)
  /\ storedSide (setBorder 1 1 "left" (VBoolean false) stray) 1 1 "top"
     = Some createSingleEmptyBorder.
Proof.
  split; [reflexivity|]. split; [|reflexivity].
  exact (setBorder_discards_a_descriptor_without_border 1 1 "left"
           (VBoolean false) {[ "top" := thin ]} stray eq_refl eq_refl).
Defined.

End SetBorderExamples.

Section RangeActions.
Context {domApi : DomApi} {utils : BorderUtils}.
Implicit Types (p q : Plugin) (border : Descriptor).

(** A loop whose turn for [j] removes the metadata of cell [g j]. *)
Lemma foldl_removeAllBorders_cellMeta {A : Type} (g : A -> Z * Z)
    (step : A -> Plugin -> Plugin) (l : list A) :
  (forall j p, cellMeta (step j p) = delete (g j) (cellMeta p)) ->
  forall p k,
    cellMeta (foldl (fun t j => step j t) p l) !! k
    = if bool_decide (k ∈ g <$> l) then None else cellMeta p !! k.
Proof.
  intros Hstep. induction l as [|a l IH]; intros p k; cbn [foldl fmap list_fmap].
  - rewrite bool_decide_eq_false_2; [reflexivity|]. apply not_elem_of_nil.
  - rewrite IH, Hstep. destruct (decide (k ∈ g <$> l)) as [Hin|Hnin].
    + rewrite !bool_decide_eq_true_2; [reflexivity|right; exact Hin|exact Hin].
    + rewrite (bool_decide_eq_false_2 _ Hnin).
      destruct (decide (g a = k)) as [<-|Hne].
      * rewrite bool_decide_eq_true_2 by left. apply lookup_delete_eq.
      * rewrite bool_decide_eq_false_2.
        -- apply lookup_delete_ne. exact Hne.
        -- intros Hin. apply elem_of_cons in Hin. destruct Hin; congruence.
Qed.

Lemma insideRange_single range r c :
  multiCell range = false ->
  insideRange range r c
  = bool_decide ((row (from range), col (from range)) = (r, c)).
Proof.
  unfold multiCell, insideRange. intros Hone.
  apply negb_false_iff in Hone. apply andb_prop in Hone. destruct Hone as [Hr Hc].
  apply Z.eqb_eq in Hr, Hc.
  destruct (decide ((row (from range), col (from range)) = (r, c))) as [Heq|Hne].
  - rewrite bool_decide_eq_true_2 by exact Heq. inversion Heq; subst.
    rewrite <- Hr, <- Hc. rewrite !Z.leb_refl. reflexivity.
  - rewrite bool_decide_eq_false_2 by exact Hne.
    apply not_true_is_false. intros Hin.
    repeat (apply andb_prop in Hin; destruct Hin as [Hin ?]).
    apply Hne. f_equal; lia.
Qed.

(** X8.  The [noBorders] action removes the metadata of every cell of
    the selected rectangle, inner cells included, and of no other cell;
    the list of selections is left as it was. *)
Theorem noBorders_clears_the_whole_rectangle range remove p :
  selections (prepareBorder range "noBorders" remove p) = selections p
  /\ forall r c,
       cellMeta (prepareBorder range "noBorders" remove p) !! (r, c)
       = if insideRange range r c then None else cellMeta p !! (r, c).
Proof.
  destruct (multiCell range) eqn:Hmulti.
  - rewrite prepareBorder_multiCell by exact Hmulti.
    cbn [String.eqb Ascii.eqb Bool.eqb]. split.
    + apply (rangeEach_invariant (fun q => selections q = selections p));
        [reflexivity|].
      intros c t _ Ht.
      apply (rangeEach_invariant (fun q => selections q = selections p));
        [exact Ht|].
      intros r u _ Hu. rewrite removeAllBorders_selections. exact Hu.
    + intros r c.
      pose proof (rangeEach_nested (fun ci ri => removeAllBorders ri ci)
                    (mkRange (mkCoords (col (from range)) (row (from range)))
                             (mkCoords (col (to range)) (row (to range)))) p)
        as Hflat.
      cbn [row col from to] in Hflat. rewrite Hflat. clear Hflat.
      rewrite (foldl_removeAllBorders_cellMeta (fun k => (k.2, k.1))
                 (fun k => removeAllBorders k.2 k.1) _
                 (fun k q => removeAllBorders_cellMeta k.2 k.1 q) p (r, c)).
      assert (Hmem : (r, c) ∈ (λ k : Z * Z, (k.2, k.1)) <$>
                cellsRowMajor (mkRange (mkCoords (col (from range)) (row (from range)))
                                       (mkCoords (col (to range)) (row (to range))))
              <-> insideRange range r c = true).
      { rewrite list_elem_of_fmap. split.
        - intros ([c' r'] & Heq & Hin). cbn in Heq. inversion Heq; subst.
          apply elem_of_cellsRowMajor in Hin. unfold insideRange in *.
          cbn [row col from to] in Hin.
          repeat (apply andb_prop in Hin; destruct Hin as [Hin ?]).
          repeat (apply andb_true_intro; split); assumption.
        - intros Hin. exists (c, r). split; [reflexivity|].
          apply elem_of_cellsRowMajor. unfold insideRange in *.
          cbn [row col from to].
          repeat (apply andb_prop in Hin; destruct Hin as [Hin ?]).
          repeat (apply andb_true_intro; split); assumption. }
      destruct (insideRange range r c) eqn:Hin.
      * rewrite bool_decide_eq_true_2; [reflexivity|]. apply Hmem. reflexivity.
      * rewrite bool_decide_eq_false_2; [reflexivity|].
        rewrite Hmem. discriminate.
  - assert (Hrun : prepareBorder range "noBorders" remove p
                   = removeAllBorders (row (from range)) (col (from range)) p).
    { unfold prepareBorder. unfold multiCell in Hmulti.
      apply negb_false_iff in Hmulti. rewrite Hmulti. reflexivity. }
    rewrite Hrun. split; [apply removeAllBorders_selections|].
    intros r c. rewrite removeAllBorders_cellMeta.
    rewrite (insideRange_single range r c Hmulti).
    destruct (decide ((row (from range), col (from range)) = (r, c))) as [Heq|Hne].
    + rewrite bool_decide_eq_true_2 by exact Heq. rewrite <- Heq.
      apply lookup_delete_eq.
    + rewrite bool_decide_eq_false_2 by exact Hne.
      apply lookup_delete_ne. exact Hne.
Qed.

(** X9.  On a range of one cell every place other than [noBorders]
    reaches [setBorder] together with the [remove] flag: the side is
    hidden when the flag is truthy, for [left], [right] and [bottom] as
    for [top], and drawn in the default style otherwise. *)
Theorem single_cell_action_passes_the_flag range place remove p :
  multiCell range = false ->
  place <> "noBorders" ->
  cellMeta (prepareBorder range place remove p)
  = <[(row (from range), col (from range)) :=
        <[place := if truthy remove then createSingleEmptyBorder
                   else createDefaultCustomBorder]>
          (currentBorders (row (from range)) (col (from range)) p)]>
      (cellMeta p).
Proof.
  intros Hone Hplace. unfold prepareBorder. unfold multiCell in Hone.
  apply negb_false_iff in Hone. rewrite Hone.
  apply String.eqb_neq in Hplace. rewrite Hplace.
  apply setBorder_cellMeta.
Qed.

(** [setBorder] along a list of distinct cells, seen from any cell. *)
Lemma rangeEach_setBorder_row_any r a b place remove p r' c :
  cellMeta (rangeEach a b (fun i => setBorder r i place remove) p) !! (r', c)
  = if (r' =? r) && (a <=? c) && (c <=? b)
    then Some (<[place := placedStyle remove]> (currentBorders r' c p))
    else cellMeta p !! (r', c).
Proof.
  destruct (Z.eqb_spec r' r) as [->|Hne].
  - rewrite rangeEach_setBorder_row. reflexivity.
  - cbn [andb]. unfold rangeEach.
    rewrite <- (foldl_fmap (fun t j => setBorder j.1 j.2 place remove t) p
                  (seqZ a (b - a + 1)) (fun i => (r, i))).
    rewrite foldl_setBorder_cellMeta.
    + rewrite bool_decide_eq_false_2; [reflexivity|].
      intros Hin. apply list_elem_of_fmap in Hin. destruct Hin as (i & Heq & _).
      inversion Heq. congruence.
    + apply NoDup_fmap_2; [|apply NoDup_seqZ]. intros x y Hxy. congruence.
Qed.

Lemma rangeEach_setBorder_col_any c a b place remove p r c' :
  cellMeta (rangeEach a b (fun i => setBorder i c place remove) p) !! (r, c')
  = if (c' =? c) && (a <=? r) && (r <=? b)
    then Some (<[place := placedStyle remove]> (currentBorders r c' p))
    else cellMeta p !! (r, c').
Proof.
  destruct (Z.eqb_spec c' c) as [->|Hne].
  - rewrite rangeEach_setBorder_col. reflexivity.
  - cbn [andb]. unfold rangeEach.
    rewrite <- (foldl_fmap (fun t j => setBorder j.1 j.2 place remove t) p
                  (seqZ a (b - a + 1)) (fun i => (i, c))).
    rewrite foldl_setBorder_cellMeta.
    + rewrite bool_decide_eq_false_2; [reflexivity|].
      intros Hin. apply list_elem_of_fmap in Hin. destruct Hin as (i & Heq & _).
      inversion Heq. congruence.
    + apply NoDup_fmap_2; [|apply NoDup_seqZ]. intros x y Hxy. congruence.
Qed.

(** X10.  Over a range of more than one cell a side action writes the
    cells of its own edge between the bounds of the range and no other
    cell: [top] the first row, [bottom] the last row, [left] the first
    column, [right] the last column.  Each written cell keeps the other
    properties of the descriptor it had. *)
Theorem side_action_writes_its_edge_only range remove p r c :
  multiCell range = true ->
  let columns := (col (from range) <=? c) && (c <=? col (to range)) in
  let rows := (row (from range) <=? r) && (r <=? row (to range)) in
  cellMeta (prepareBorder range "top" remove p) !! (r, c)
    = (if (r =? row (from range)) && columns
       then Some (<["top" := placedStyle remove]> (currentBorders r c p))
       else cellMeta p !! (r, c))
  /\ cellMeta (prepareBorder range "bottom" remove p) !! (r, c)
    = (if (r =? row (to range)) && columns
       then Some (<["bottom" := createDefaultCustomBorder]> (currentBorders r c p))
       else cellMeta p !! (r, c))
  /\ cellMeta (prepareBorder range "left" remove p) !! (r, c)
    = (if (c =? col (from range)) && rows
       then Some (<["left" := createDefaultCustomBorder]> (currentBorders r c p))
       else cellMeta p !! (r, c))
  /\ cellMeta (prepareBorder range "right" remove p) !! (r, c)
    = (if (c =? col (to range)) && rows
       then Some (<["right" := createDefaultCustomBorder]> (currentBorders r c p))
       else cellMeta p !! (r, c)).
Proof.
  intros Hmulti columns rows. rewrite !prepareBorder_multiCell by exact Hmulti.
  cbn [String.eqb Ascii.eqb Bool.eqb]. unfold columns, rows.
  rewrite !rangeEach_setBorder_row_any, !rangeEach_setBorder_col_any.
  rewrite !andb_assoc. repeat split.
Qed.

End RangeActions.

Section RangeActionExamples.
Import Sample.

Lemma single_cell_action_passes_the_flag_witness :
  cellMeta (prepareBorder (mkRange (mkCoords 0 0) (mkCoords 0 0)) "left"
              (VBoolean true) blank)
  = <[(0, 0) := <["left" := createSingleEmptyBorder]> (createEmptyBorders 0 0)]>
      (cellMeta blank).
Proof.
  apply (single_cell_action_passes_the_flag
           (mkRange (mkCoords 0 0) (mkCoords 0 0)) "left" (VBoolean true) blank);
    [reflexivity | discriminate].
Defined.

(** The [top] action over the 2x2 range writes (0,1) and leaves (1,1)
    without a descriptor. *)
Lemma side_action_writes_its_edge_only_witness :
  cellMeta (prepareBorder square "top" (VBoolean false) blank) !! (0, 1)
    = Some (<["top" := createDefaultCustomBorder]> (createEmptyBorders 0 1))
  /\ cellMeta (prepareBorder square "top" (VBoolean false) blank) !! (1, 1)
    = None.
Proof.
  split.
  - exact (proj1 (side_action_writes_its_edge_only square (VBoolean false)
                    blank 0 1 eq_refl)).
  - exact (proj1 (side_action_writes_its_edge_only square (VBoolean false)
                    blank 1 1 eq_refl)).
Defined.

End RangeActionExamples.

(** * Further properties of the configuration *)

Section Reapplying.
Context {domApi : DomApi} {utils : BorderUtils}.
Implicit Types (p q : Plugin) (border : Descriptor).

Lemma createCustomBorders_cellMeta borders p :
  cellMeta (createCustomBorders borders p)
  = match borders with
    | SettingArray entries =>
        cellMeta (foldl (fun t entry => createCustomBorder entry t) p entries)
    | _ => cellMeta p
    end.
Proof.
  destruct borders as [|b|entries]; [reflexivity..|].
  rewrite createCustomBorders_array. reflexivity.
Qed.

(** The metadata [createCustomBorders] leaves is settled by the metadata
    it finds. *)
Lemma createCustomBorders_cellMeta_ext borders p q :
  cellMeta p = cellMeta q ->
  cellMeta (createCustomBorders borders p) = cellMeta (createCustomBorders borders q).
Proof.
  intros Heq. rewrite !createCustomBorders_cellMeta.
  destruct borders as [|b|entries]; [exact Heq..|].
  apply map_eq. intros k.
  destruct (foldl_createCustomBorder_cellMeta_stateless entries p q k)
    as [Hk|[Hp Hq]]; [exact Hk|].
  rewrite Hp, Hq, Heq. reflexivity.
Qed.

(** Metadata that already is the outcome of the array is not changed by
    the array. *)
Lemma createCustomBorders_cellMeta_absorbs borders p q :
  cellMeta q = cellMeta (createCustomBorders borders p) ->
  cellMeta (createCustomBorders borders q) = cellMeta (createCustomBorders borders p).
Proof.
  intros Heq. rewrite (createCustomBorders_cellMeta borders q).
  destruct borders as [|b|entries]; [exact Heq..|].
  rewrite createCustomBorders_cellMeta in *.
  apply map_eq. intros k.
  destruct (foldl_createCustomBorder_cellMeta_stateless entries q p k)
    as [Hk|[Hq Hp]]; [exact Hk|].
  rewrite Hq, Heq. reflexivity.
Qed.

(** A loop whose turn for cell [k] appends the selections [C k]. *)
Lemma foldl_cell_selections (C : Z * Z -> list Selection)
    (step : Z * Z -> Plugin -> Plugin) (l : list (Z * Z)) :
  (forall k p, selections (step k p) = selections p ++ C k) ->
  forall p, selections (foldl (fun t j => step j t) p l)
            = selections p ++ (l ≫= C).
Proof.
  intros Hstep. induction l as [|a l IH]; intros p; cbn [foldl].
  - simpl. rewrite app_nil_r. reflexivity.
  - rewrite IH, Hstep. rewrite <- app_assoc. reflexivity.
Qed.

(** The selections an entry registers do not depend on the state. *)
Lemma createCustomBorder_selections entry :
  exists added, forall p,
    selections (createCustomBorder entry p) = selections p ++ added.
Proof.
  unfold createCustomBorder. destruct (Entry.range entry) as [range|] eqn:Hrange.
  - exists (cellsRowMajor range ≫= fun k =>
             if onBoundary range k.1 k.2
             then [newSelection (fst (rangeCellBorder entry range k.1 k.2))]
             else []).
    intros p. unfold prepareBorderFromCustomAddedRange. rewrite Hrange.
    rewrite (rangeEach_nested (rangeCell entry range)).
    apply (foldl_cell_selections _ (fun k => rangeCell entry range k.1 k.2)).
    intros [r c] q. unfold rangeCell. cbn [fst snd].
    rewrite <- (rangeCellBorder_add entry).
    destruct (rangeCellBorder entry range r c) as [border add]. cbn [fst snd].
    destruct (0 <? add).
    + rewrite insertBorderIntoSettings_push. reflexivity.
    + rewrite app_nil_r. reflexivity.
  - exists [newSelection (extendDefaultBorder
                            (createEmptyBorders (Entry.row entry) (Entry.col entry))
                            entry)].
    intros p. unfold prepareBorderFromCustomAdded.
    rewrite insertBorderIntoSettings_push. reflexivity.
Qed.

Lemma createCustomBorders_selections borders :
  exists added, forall p,
    selections (createCustomBorders borders p) = selections p ++ added.
Proof.
  destruct borders as [|b|entries];
    [exists []; intros p; cbn; rewrite app_nil_r; reflexivity..|].
  assert (Hfold : exists added, forall p,
            selections (foldl (fun t entry => createCustomBorder entry t) p entries)
            = selections p ++ added).
  { induction entries as [|entry entries IH].
    - exists []. intros p. simpl. rewrite app_nil_r. reflexivity.
    - destruct IH as (rest & Hrest).
      destruct (createCustomBorder_selections entry) as (first & Hfirst).
      exists (first ++ rest). intros p. simpl.
      rewrite Hrest, Hfirst, app_assoc. reflexivity. }
  destruct Hfold as (added & Hadded). exists added. intros p.
  rewrite createCustomBorders_array. apply Hadded.
Qed.

(** X11.  Applying a configuration to metadata that the same
    configuration produced changes none of it: a second
    [createCustomBorders] with the same argument leaves every cell's
    descriptor as the first left it. *)
Theorem createCustomBorders_again_keeps_the_metadata borders p :
  cellMeta (createCustomBorders borders (createCustomBorders borders p))
  = cellMeta (createCustomBorders borders p).
Proof. apply createCustomBorders_cellMeta_absorbs. reflexivity. Qed.

(** X12.  The selections [createCustomBorders] registers are settled by
    its argument alone and go to the end of the list whatever it holds:
    applying the same configuration twice leaves them in the list
    twice. *)
Theorem createCustomBorders_registers_again borders :
  exists added, forall p,
    selections (createCustomBorders borders p) = selections p ++ added
    /\ selections (createCustomBorders borders (createCustomBorders borders p))
       = selections p ++ added ++ added.
Proof.
  destruct (createCustomBorders_selections borders) as (added & Hadded).
  exists added. intros p. split; [apply Hadded|].
  rewrite !Hadded, app_assoc. reflexivity.
Qed.

(** X13.  Of the entries of the array the last one decides: the cell of
    a point entry at the end of the array holds that entry's descriptor,
    whatever earlier entries, point or range, wrote there. *)
Theorem last_point_entry_decides entries entry p :
  Entry.range entry = None ->
  cellMeta (createCustomBorders (SettingArray (entries ++ [entry])) p)
    !! (Entry.row entry, Entry.col entry)
  = Some (extendDefaultBorder
            (createEmptyBorders (Entry.row entry) (Entry.col entry)) entry).
Proof.
  intros Hpoint. rewrite createCustomBorders_array. cbn [cellMeta draw render logCall].
  rewrite foldl_app. cbn [foldl]. unfold createCustomBorder at 1.
  rewrite Hpoint, prepareBorderFromCustomAdded_cellMeta.
  apply lookup_insert_eq.
Qed.

End Reapplying.

Section ReapplyingExamples.
Import Sample.

(** The 2x2 range entry writes cell (1,1) without a left side; the point
    entry after it gives the cell its red left side. *)
Lemma last_point_entry_decides_witness :
  cellMeta (createCustomBorders (SettingArray ([bottomOnly] ++ [leftRed])) blank)
    !! (1, 1)
  = Some cell11.
Proof. exact (last_point_entry_decides [bottomOnly] leftRed blank eq_refl). Defined.

End ReapplyingExamples.

Section Lifecycle.
Context {domApi : DomApi} {utils : BorderUtils}.
Implicit Types (p q : Plugin) (border : Descriptor).

Lemma renders_dom_calls (l : list Call) :
  Forall (fun c => isDomCall c = true) l -> renders l = 0%nat.
Proof.
  induction 1 as [|c l Hc _ IH]; [reflexivity|].
  unfold renders in *. destruct c; try discriminate Hc; exact IH.
Qed.

Lemma renders_writes (l : list Call) :
  Forall (fun c => isWrite c = true) l -> renders l = 0%nat.
Proof.
  induction 1 as [|c l Hc _ IH]; [reflexivity|].
  unfold renders in *. destruct c; try discriminate Hc; exact IH.
Qed.

Lemma purgeBorderCells_renders p :
  renders (calls (purgeBorderCells p)) = renders (calls p).
Proof.
  destruct (purgeBorderCells_calls p) as (l & -> & Hdom).
  rewrite renders_app.
  change (CallQuerySelectorAll borderCellsSelector :: l)
    with ([CallQuerySelectorAll borderCellsSelector] ++ l).
  rewrite renders_app, (renders_dom_calls l Hdom). cbn. lia.
Qed.

Lemma createCustomBorders_renders borders p :
  renders (calls (createCustomBorders borders p)) = S (renders (calls p)).
Proof.
  destruct (createCustomBorders_shape borders p) as (_ & _ & _ & w & -> & Hw).
  rewrite !renders_app, (renders_writes w Hw). cbn. lia.
Qed.

(** One run of [setsBordersSettings], case by case: the purge alone, or
    the purge (and the save of an array) followed by
    [createCustomBorders] on what [appliedSetting] names. *)
Lemma setsBordersSettings_run p :
  exists q,
    cellMeta q = cellMeta p /\ selections q = selections p
    /\ customBorders q = customBorders p
    /\ savedSettings q
       = match customBorders p with
         | SettingArray entries => Some entries
         | _ => savedSettings p
         end
    /\ renders (calls q) = renders (calls p)
    /\ setsBordersSettings p
       = if setting_truthy (customBorders p)
         then createCustomBorders (appliedSetting p) q
         else q.
Proof.
  destruct (purgeBorderCells_sameStore p) as (Hm & Hs & Hc & Hsv).
  pose proof (purgeBorderCells_renders p) as Hr.
  rewrite setsBordersSettings_unfold. cbv zeta. unfold appliedSetting.
  destruct (customBorders p) as [|[]|entries] eqn:Hcfg; cbn [setting_truthy].
  - exists (purgeBorderCells p). repeat split; assumption.
  - exists (purgeBorderCells p). rewrite Hsv.
    repeat split; assumption.
  - exists (purgeBorderCells p). repeat split; assumption.
  - exists (setSavedSettings entries (purgeBorderCells p)).
    repeat split; assumption.
Qed.

Lemma setsBordersSettings_frame p :
  customBorders (setsBordersSettings p) = customBorders p
  /\ savedSettings (setsBordersSettings p)
     = match customBorders p with
       | SettingArray entries => Some entries
       | _ => savedSettings p
       end
  /\ appliedSetting (setsBordersSettings p) = appliedSetting p.
Proof.
  destruct (setsBordersSettings_run p) as (q & _ & _ & Hc & Hsv & _ & Hrun).
  assert (Hcs : customBorders (setsBordersSettings p) = customBorders p
                /\ savedSettings (setsBordersSettings p) = savedSettings q).
  { rewrite Hrun. destruct (setting_truthy (customBorders p)).
    - destruct (createCustomBorders_shape (appliedSetting p) q)
        as (_ & -> & -> & _).
      split; [exact Hc|reflexivity].
    - split; [exact Hc|reflexivity]. }
  destruct Hcs as (Hc' & Hsv'). rewrite Hsv' , Hsv.
  split; [exact Hc'|]. split; [reflexivity|].
  unfold appliedSetting. rewrite Hc', Hsv', Hsv.
  destruct (customBorders p) as [|[]|entries]; try reflexivity.
Qed.

(** X14.  A second run of [setsBordersSettings] changes neither the
    metadata nor [savedSettings] nor the setting: what the first run
    stored for each cell is stored again. *)
Theorem setsBordersSettings_again_keeps_the_metadata p :
  cellMeta (setsBordersSettings (setsBordersSettings p))
    = cellMeta (setsBordersSettings p)
  /\ savedSettings (setsBordersSettings (setsBordersSettings p))
    = savedSettings (setsBordersSettings p)
  /\ customBorders (setsBordersSettings (setsBordersSettings p))
    = customBorders p.
Proof.
  destruct (setsBordersSettings_frame p) as (Hc & Hsv & Happ).
  destruct (setsBordersSettings_frame (setsBordersSettings p))
    as (Hc2 & Hsv2 & _).
  split; [|split].
  - destruct (setsBordersSettings_run p) as (q & Hm & _ & _ & _ & _ & Hrun).
    destruct (setsBordersSettings_run (setsBordersSettings p))
      as (q2 & Hm2 & _ & _ & _ & _ & Hrun2).
    rewrite Hrun2, Hc, Happ. rewrite Hrun in *.
    destruct (setting_truthy (customBorders p)).
    + apply createCustomBorders_cellMeta_absorbs. exact Hm2.
    + exact Hm2.
  - rewrite Hsv2, Hc, Hsv. destruct (customBorders p); reflexivity.
  - rewrite Hc2. exact Hc.
Qed.

(** X15.  [updatePlugin] runs [setsBordersSettings] twice, once through
    [disablePlugin] and once itself: the selections one run registers
    are in the list twice afterwards, and with a truthy setting two
    redraws are requested (none with a falsy one). *)
Theorem updatePlugin_registers_and_redraws_twice p :
  exists added,
    selections (setsBordersSettings p) = selections p ++ added
    /\ selections (updatePlugin p) = selections p ++ added ++ added
    /\ renders (calls (updatePlugin p))
       = (renders (calls p)
          + if setting_truthy (customBorders p) then 2 else 0)%nat.
Proof.
  unfold updatePlugin, disablePlugin, enablePlugin. cbv zeta.
  destruct (setsBordersSettings_frame p) as (Hc & _ & Happ).
  destruct (setsBordersSettings_run p) as (q & _ & Hs & _ & _ & Hr & Hrun).
  destruct (setsBordersSettings_run (setsBordersSettings p))
    as (q2 & _ & Hs2 & _ & _ & Hr2 & Hrun2).
  rewrite Hc, Happ in Hrun2.
  destruct (setting_truthy (customBorders p)).
  - destruct (createCustomBorders_selections (appliedSetting p)) as (added & Hadded).
    exists added. rewrite Hrun2, !Hadded, Hs2, Hrun, !Hadded, Hs.
    split; [reflexivity|]. split; [rewrite app_assoc; reflexivity|].
    rewrite !createCustomBorders_renders, Hr2, Hrun,
      createCustomBorders_renders, Hr. lia.
  - exists []. rewrite Hrun2, Hs2, Hrun, Hs, Hr2, Hrun, Hr.
    rewrite !app_nil_r. split; [reflexivity|]. split; [reflexivity|lia].
Qed.

End Lifecycle.

Section Composition.
Context {domApi : DomApi} {utils : BorderUtils}.
Implicit Types (p q : Plugin) (border : Descriptor).

Lemma assignOwn_comm side1 v1 side2 v2 border :
  side1 <> side2 ->
  assignOwn side1 v1 (assignOwn side2 v2 border)
  = assignOwn side2 v2 (assignOwn side1 v1 border).
Proof.
  intros Hne. destruct v1, v2; simpl; try reflexivity.
  apply insert_insert_ne. exact Hne.
Qed.

(** The one cell of a range is on all four edges of it. *)
Lemma rangeCellBorder_single rowObj range :
  multiCell range = false ->
  rangeCellBorder rowObj range (row (from range)) (col (from range))
  = (extendDefaultBorder
       (createEmptyBorders (row (from range)) (col (from range))) rowObj, 4).
Proof.
  unfold multiCell. intros Hone. apply negb_false_iff in Hone.
  apply andb_prop in Hone. destruct Hone as [Hr Hc].
  unfold rangeCellBorder. rewrite Hr, Hc, !Z.eqb_refl.
  unfold extendDefaultBorder. f_equal.
  rewrite (assignOwn_comm "right" _ "left") by discriminate.
  rewrite (assignOwn_comm "right" _ "bottom") by discriminate.
  reflexivity.
Qed.

(** X16.  A range entry whose range is a single cell stores for that
    cell the descriptor a point entry with the same sides stores, and
    touches no other cell. *)
Theorem single_cell_range_entry_is_a_point_entry rowObj range p :
  Entry.range rowObj = Some range ->
  multiCell range = false ->
  cellMeta (prepareBorderFromCustomAddedRange rowObj p)
  = cellMeta (prepareBorderFromCustomAdded
                (row (from range)) (col (from range)) rowObj p).
Proof.
  intros Hrange Hone. apply map_eq. intros [r c].
  rewrite (prepareBorderFromCustomAddedRange_cellMeta _ range) by exact Hrange.
  rewrite prepareBorderFromCustomAdded_cellMeta.
  rewrite (insideRange_single range r c Hone).
  destruct (decide ((row (from range), col (from range)) = (r, c))) as [Heq|Hne].
  - rewrite bool_decide_eq_true_2 by exact Heq. inversion Heq; subst.
    rewrite lookup_insert_eq.
    replace (onBoundary range (row (from range)) (col (from range))) with true
      by (unfold onBoundary; rewrite Z.eqb_refl; reflexivity).
    cbn [andb]. rewrite (rangeCellBorder_single rowObj range Hone). reflexivity.
  - rewrite bool_decide_eq_false_2 by exact Hne. cbn [andb].
    rewrite lookup_insert_ne by exact Hne. reflexivity.
Qed.

(** X17.  [removeAllBorders] on a cell that has no [borders] entry
    leaves the metadata of all cells as it is. *)
Theorem removeAllBorders_without_metadata r c p :
  cellMeta p !! (r, c) = None ->
  cellMeta (removeAllBorders r c p) = cellMeta p.
Proof.
  intros Hnone. rewrite removeAllBorders_cellMeta. apply delete_id. exact Hnone.
Qed.

(** X18.  Setting a side on a cell and then clearing the cell leaves the
    metadata as if the cell had been cleared at once, while the list of
    selections is one entry longer than before and ends with the
    selection that [setBorder] registered for the cell. *)
Theorem setBorder_then_removeAllBorders r c place remove p :
  cellMeta (removeAllBorders r c (setBorder r c place remove p))
    = cellMeta (removeAllBorders r c p)
  /\ getCellMeta r c (removeAllBorders r c (setBorder r c place remove p)) = None
  /\ length (selections (removeAllBorders r c (setBorder r c place remove p)))
    = S (length (selections p))
  /\ last (selections (removeAllBorders r c (setBorder r c place remove p)))
    = Some (newSelection
              (<[place := placedStyle remove]> (currentBorders r c p))).
Proof.
  rewrite !removeAllBorders_cellMeta, removeAllBorders_selections,
    setBorder_cellMeta.
  unfold getCellMeta. rewrite removeAllBorders_cellMeta, lookup_delete_eq.
  destruct (setBorder_registers r c place remove p) as (Hlen & Hlast).
  split; [apply delete_insert_eq|]. split; [reflexivity|].
  split; [exact Hlen | exact Hlast].
Qed.

End Composition.

Section CompositionExamples.
Import Sample.

Lemma single_cell_range_entry_is_a_point_entry_witness :
  cellMeta (prepareBorderFromCustomAddedRange dot blank)
  = cellMeta (prepareBorderFromCustomAdded 1 1 dot blank).
Proof.
  exact (single_cell_range_entry_is_a_point_entry dot
           (mkRange (mkCoords 1 1) (mkCoords 1 1)) blank eq_refl eq_refl).
Defined.

Lemma removeAllBorders_without_metadata_witness :
  cellMeta (removeAllBorders 1 1 blank) = cellMeta blank.
Proof. exact (removeAllBorders_without_metadata 1 1 blank eq_refl). Defined.

End CompositionExamples.
